(** * FileEditorTracker

    A shallow embedding of
    [src/vs/workbench/parts/files/common/editors/fileEditorTracker.ts]:
    the workbench contribution that keeps the opened file editors in
    agreement with the files on disk.  The tracker listens to two event
    sources (local file changes and file changes reported from disk) and
    answers by disposing editor inputs, re-opening editors under a new
    resource, re-loading text models and re-opening binary editors.

    The tracker never changes an editor, an input or a model itself: it calls
    methods of its collaborators.  Those calls are recorded here, in program
    order, as a log of [Command]s; a handler is a computation in a small
    writer/exception monad [M] whose log is the sequence of calls it makes and
    whose completion says whether the handler returned or a JavaScript
    [TypeError] escaped from it. *)

From Stdlib Require Import String Ascii List ZArith Bool Lia.
Import ListNotations.
Local Open Scope list_scope.

(* ================================================================== *)
(** ** JavaScript string built-ins used by the tracker *)
(* ================================================================== *)

Module JS.

(** [hay.indexOf(needle)]: position of the first occurrence, [-1] when
    there is none. *)
Fixpoint indexOfFrom (needle hay : string) (i : Z) : Z :=
  if String.prefix needle hay then i
  else match hay with
       | EmptyString => (-1)%Z
       | String _ rest => indexOfFrom needle rest (i + 1)%Z
       end.

Definition indexOf (hay needle : string) : Z := indexOfFrom needle hay 0%Z.

Fixpoint drop (n : nat) (s : string) : string :=
  match n, s with
  | O, _ => s
  | S _, EmptyString => EmptyString
  | S n', String _ rest => drop n' rest
  end.

(** [s.substr(start)] with its single argument: a negative [start] counts
    from the end of the string, a [start] past the end gives the empty
    string. *)
Definition substr (s : string) (start : Z) : string :=
  let len := Z.of_nat (String.length s) in
  let from := if (start <? 0)%Z then Z.max (len + start) 0 else Z.min start len in
  drop (Z.to_nat from) s.

Definition lowerChar (c : ascii) : ascii :=
  let n := nat_of_ascii c in
  if (65 <=? n)%nat && (n <=? 90)%nat then ascii_of_nat (n + 32) else c.

(** [s.toLowerCase()], on the ASCII letters. *)
Fixpoint toLowerCase (s : string) : string :=
  match s with
  | EmptyString => EmptyString
  | String c rest => String (lowerChar c) (toLowerCase rest)
  end.

Definition startsWith (s p : string) : bool := String.prefix p s.

Fixpoint endsWithChar (s : string) (c : ascii) : bool :=
  match s with
  | EmptyString => false
  | String d EmptyString => Ascii.eqb d c
  | String _ rest => endsWithChar rest c
  end.

End JS.

(* ================================================================== *)
(** ** Resources and the paths API *)
(* ================================================================== *)

(** Modelled from the spec: [URI] ([vs/base/common/uri] is not under src/).
    A resource identity is "an opaque, comparable path-like identifier";
    the tracker only reads [fsPath] and [toString()] of a resource and
    builds one with [URI.file].  Editor inputs of files carry file
    resources, so a resource is its file-system path. *)
Record URI : Type := mkURI { fsPath : string }.

Definition URI_file (path : string) : URI := mkURI path.

Definition URI_toString (u : URI) : string := ("file://" ++ fsPath u)%string.

Module paths.

Definition sep : string := "/"%string.

(** A trailing separator of a path is dropped. *)
Fixpoint stripTrailingSep (s : string) : string :=
  match s with
  | EmptyString => EmptyString
  | String c EmptyString => if Ascii.eqb c "/"%char then EmptyString else s
  | String c rest => String c (stripTrailingSep rest)
  end.

(** Modelled from the spec: [paths.isEqualOrParent]
    ([vs/base/common/paths] is not under src/).  "True if b equals a or a
    is a path-prefix of b at a segment boundary (not a raw string
    prefix)": a trailing separator of the candidate does not count, so that
    [/proj/src/] and the root [/] are the folders they name.  The
    case-sensitivity is "defined by the host filesystem": on a host other
    than Linux the two paths are compared without regard to case, which is
    what the comment in [handleDeletes] relies on. *)
Definition isEqualOrParent (isLinux : bool) (path candidate : string) : bool :=
  if String.eqb path candidate then true
  else
    let candidate0 := stripTrailingSep candidate in
    if String.eqb path candidate0 then true
    else
      let path' := if isLinux then path else JS.toLowerCase path in
      let candidate' := if isLinux then candidate0 else JS.toLowerCase candidate0 in
      if String.eqb path' candidate' then true
      else String.prefix (candidate' ++ sep)%string path'.

(** Modelled from the spec: [paths.join] on two parts
    ([vs/base/common/paths] is not under src/): the parts are put
    together with a separator between them, unless one is already
    there.  The parts are taken to be in normal form. *)
Definition join (a b : string) : string :=
  if JS.endsWithChar a "/"%char || JS.startsWith b sep
  then (a ++ b)%string
  else (a ++ sep ++ b)%string.

End paths.

(* ================================================================== *)
(** ** Events *)
(* ================================================================== *)

Inductive FileChangeType : Type := UPDATED | ADDED | DELETED.

Definition FileChangeType_eqb (a b : FileChangeType) : bool :=
  match a, b with
  | UPDATED, UPDATED | ADDED, ADDED | DELETED, DELETED => true
  | _, _ => false
  end.

Record IFileChange : Type := mkChange {
  change_type : FileChangeType;
  change_resource : URI
}.

(** Modelled from the spec: [FileChangesEvent]
    ([vs/platform/files/common/files] is not under src/).  An external batch
    event "carries a set of (resource, changeKind) tuples, with a query
    contains(resource, kind)"; resources are compared as the host file
    system compares them. *)
Record FileChangesEvent : Type := mkFileChangesEvent {
  changes : list IFileChange
}.

Definition isEqual (isLinux : bool) (a b : string) : bool :=
  if isLinux then String.eqb a b
  else String.eqb (JS.toLowerCase a) (JS.toLowerCase b).

Definition contains (isLinux : bool) (e : FileChangesEvent)
    (resource : URI) (type : FileChangeType) : bool :=
  existsb (fun change =>
             FileChangeType_eqb (change_type change) type
             && isEqual isLinux (fsPath resource) (fsPath (change_resource change)))
          (changes e).

Definition gotDeleted (e : FileChangesEvent) : bool :=
  existsb (fun change => FileChangeType_eqb (change_type change) DELETED)
          (changes e).

Record IFileStat : Type := mkStat { stat_resource : URI }.

(** Modelled from the spec: [LocalFileChangeEvent]
    ([vs/workbench/services/textfile/common/textfiles] is not under src/).
    A local lifecycle event "carries an optional before/after resource pair
    and flags wasDeleted, wasMoved". *)
Record LocalFileChangeEvent : Type := mkLocalEvent {
  getBefore : option IFileStat;
  getAfter : option IFileStat;
  local_gotMoved : bool;
  local_gotDeleted : bool
}.

(* ================================================================== *)
(** ** Editor inputs, groups, editors and text models *)
(* ================================================================== *)

Record FileEditorInput : Type := mkFileInput {
  input_id : nat;           (* the identity of the input object *)
  getResource : URI;
  isDirty : bool
}.

(** The editor inputs the tracker tells apart with [instanceof]. *)
Inductive EditorInput : Type :=
| FileInput (f : FileEditorInput)
| SideBySideInput (master details : EditorInput)
| OtherInput (id : nat).

(** [IEditorGroup]: the editors of the group in order, and what the group
    answers about one of them. *)
Record IEditorGroup : Type := mkGroup {
  getEditors : list EditorInput;
  isPinned : EditorInput -> bool;
  indexOf : EditorInput -> Z;
  isActive : EditorInput -> bool;
  group_position : Z        (* [stacks.positionOfGroup(group)] *)
}.

Record IEditorStacksModel : Type := mkStacks {
  groups : list IEditorGroup
}.

Definition positionOfGroup (stacks : IEditorStacksModel) (group : IEditorGroup) : Z :=
  group_position group.

Definition ViewState : Type := nat.

(** The control of an editor ([editor.getControl()]), a code editor whose
    view state can be saved and restored. *)
Record IEditor : Type := mkControl {
  control_id : nat;
  saveViewState : ViewState
}.

Record IBaseEditor : Type := mkEditor {
  getId : string;
  input : option EditorInput;
  position : Z;
  isVisible : bool;
  getControl : IEditor
}.

(** Modelled from the spec: [ModelState]; the tracker names only [SAVED],
    the spec lists "Clean|Dirty|Saving". *)
Inductive ModelState : Type := SAVED | DIRTY | PENDING_SAVE.

Definition ModelState_eqb (a b : ModelState) : bool :=
  match a, b with
  | SAVED, SAVED | DIRTY, DIRTY | PENDING_SAVE, PENDING_SAVE => true
  | _, _ => false
  end.

Record ITextFileEditorModel : Type := mkModel {
  model_getResource : URI;
  getState : ModelState;
  getLastSaveAttemptTime : Z;
  getLastModifiedTime : Z
}.

(** [textFileService.models.get(resource)]. *)
Definition ITextFileEditorModelManager : Type := URI -> option ITextFileEditorModel.

(** The identifier of the binary file editor, declared in
    [vs/workbench/parts/files/common/files]. *)
Definition BINARY_FILE_EDITOR_ID : string :=
  "workbench.editors.files.binaryFileEditor"%string.

(* ================================================================== *)
(** ** Commands and the handler monad *)
(* ================================================================== *)

(** The options of [openEditor({ resource, options }, position)]. *)
Record ReopenOptions : Type := mkReopenOptions {
  opt_preserveFocus : bool;
  opt_pinned : bool;
  opt_index : Z;
  opt_inactive : bool
}.

(** What a pending [textModel.load()] remembers for its [done] callback. *)
Record PendingReload : Type := mkPending {
  pending_codeEditor : IEditor;
  pending_viewState : ViewState;
  pending_currentMtime : Z
}.

Inductive Command : Type :=
| Dispose (i : FileEditorInput)
    (* input.dispose() *)
| OpenResource (resource : option URI) (options : ReopenOptions) (pos : Z)
    (* editorService.openEditor({ resource, options }, position) *)
| ReopenInput (i : option EditorInput) (forceOpen preserveFocus : bool) (pos : Z)
    (* editorService.openEditor(editor.input, { forceOpen, preserveFocus }, editor.position) *)
| Load (model : ITextFileEditorModel) (pending : PendingReload)
    (* textModel.load().done(...) *)
| RestoreViewState (codeEditor : IEditor) (viewState : ViewState).
    (* codeEditor.restoreViewState(viewState) *)

Inductive JSError : Type := TypeError.

Inductive Completion (A : Type) : Type :=
| Returned (a : A)
| Thrown (e : JSError).
Arguments Returned {A} a.
Arguments Thrown {A} e.

(** A handler: the calls it made, and how it ended. *)
Definition M (A : Type) : Type := (list Command * Completion A)%type.

Definition ret {A} (a : A) : M A := ([], Returned a).

Definition bind {A B} (m : M A) (k : A -> M B) : M B :=
  match m with
  | (l, Returned a) => let (l', r) := k a in (l ++ l', r)
  | (l, Thrown e) => (l, Thrown e)
  end.

Definition issue (c : Command) : M unit := ([c], Returned tt).

Definition throw {A} (e : JSError) : M A := ([], Thrown e).

Notation "x <- m ;; k" := (bind m (fun x => k))
  (at level 61, m at next level, right associativity).
Notation "m ;; k" := (bind m (fun _ => k))
  (at level 61, right associativity).

Definition commands {A} (m : M A) : list Command := fst m.

Definition completion {A} (m : M A) : Completion A := snd m.

(** [array.forEach(f)]: an exception thrown by [f] ends the iteration. *)
Fixpoint forEach {A} (l : list A) (f : A -> M unit) : M unit :=
  match l with
  | [] => ret tt
  | x :: rest => f x ;; forEach rest f
  end.

(** Reading a property of a value that may be [null]. *)
Definition deref {A B} (o : option A) (field : A -> B) : M B :=
  match o with
  | Some a => ret (field a)
  | None => throw TypeError
  end.

(* ================================================================== *)
(** ** The tracker *)
(* ================================================================== *)

Section FileEditorTracker.

(** The host platform: [paths] compares with regard to case on Linux only. *)
Variable isLinux : bool.

(** Delay in ms that we wait at minimum before we update a model from a
    file change event. *)
Definition FILE_CHANGE_UPDATE_DELAY : Z := 2000.

Definition fileInputOf (i : EditorInput) : list FileEditorInput :=
  match i with
  | FileInput f => [f]
  | _ => []
  end.

Definition getOpenedFileInputs (stacks : IEditorStacksModel) : list FileEditorInput :=
  flat_map (fun group =>
    flat_map (fun i =>
      match i with
      | FileInput f => [f]
      | SideBySideInput master details => fileInputOf master ++ fileInputOf details
      | OtherInput _ => []
      end) (getEditors group)) (groups stacks).

(** [handleDeletes(arg1: URI | FileChangesEvent, movedTo?: URI)], on the
    stacks model that [getOpenedFileInputs] reads. *)
Definition handleDeletes (stacks : IEditorStacksModel)
    (arg1 : URI + FileChangesEvent) (movedTo : option URI) : M unit :=
  let fileInputs := getOpenedFileInputs stacks in
  forEach fileInputs (fun i =>
    if isDirty i then ret tt (* we never dispose dirty files *)
    else if match movedTo with
            | Some target => String.eqb (fsPath target) (fsPath (getResource i))
            | None => false
            end
    then ret tt
    else
      let matches :=
        match arg1 with
        | inr e => contains isLinux e (getResource i) DELETED
        | inl uri =>
            paths.isEqualOrParent isLinux
              (URI_toString (getResource i)) (URI_toString uri)
        end in
      if matches then issue (Dispose i) else ret tt).

(** The body of the inner [forEach] of [handleMovedFileInOpenedEditors],
    for the editor [i] of [group]. *)
Definition reopenMovedEditor (stacks : IEditorStacksModel)
    (oldResource newResource : option URI)
    (group : IEditorGroup) (i : EditorInput) : M unit :=
  match i with
  | FileInput f =>
      let resource := getResource f in
      (* Update Editor if file (or any parent of the input) got renamed or moved *)
      oldPath <- deref oldResource fsPath ;;
      if paths.isEqualOrParent isLinux (fsPath resource) oldPath then
        reopenFileResource <-
          (oldString <- deref oldResource URI_toString ;;
           if String.eqb oldString (URI_toString resource)
           then ret newResource (* file got moved *)
           else
             let index := JS.indexOf (fsPath resource) oldPath in
             newPath <- deref newResource fsPath ;;
             (* parent folder got moved *)
             ret (Some (URI_file
                    (paths.join newPath
                       (JS.substr (fsPath resource)
                          (index + Z.of_nat (String.length oldPath) + 1)))))) ;;
        (* Reopen *)
        issue (OpenResource reopenFileResource
                 {| opt_preserveFocus := true;
                    opt_pinned := isPinned group i;
                    opt_index := indexOf group i;
                    opt_inactive := negb (isActive group i) |}
                 (positionOfGroup stacks group))
      else ret tt
  | _ => ret tt
  end.

(** [handleMovedFileInOpenedEditors(oldResource: URI, newResource: URI)];
    both arguments may be [null] at the call in [onLocalFileChange]. *)
Definition handleMovedFileInOpenedEditors (stacks : IEditorStacksModel)
    (oldResource newResource : option URI) : M unit :=
  forEach (groups stacks) (fun group =>
    forEach (getEditors group)
            (reopenMovedEditor stacks oldResource newResource group)).

Definition getMatchingFileEditorInputFromInput (i : EditorInput)
    (e : FileChangesEvent) : option FileEditorInput :=
  match i with
  | FileInput f =>
      if contains isLinux e (getResource f) UPDATED then Some f else None
  | _ => None
  end.

Definition getMatchingFileEditorInputFromSideBySide (master details : EditorInput)
    (e : FileChangesEvent) : option FileEditorInput :=
  (* First try master *)
  match getMatchingFileEditorInputFromInput master e with
  | Some res => Some res
  | None =>
      (* Second try details *)
      getMatchingFileEditorInputFromInput details e
  end.

Definition isEditorShowingPath (editor : IBaseEditor) (resource : URI) : bool :=
  if negb (isVisible editor) then false
  else
    match input editor with
    | None => false
    | Some i =>
        let i' := match i with
                  | SideBySideInput master _ => master
                  | _ => i
                  end in
        match i' with
        | FileInput f =>
            String.eqb (URI_toString (getResource f)) (URI_toString resource)
        | _ => false
        end
    end.

(** The callback given to [textModel.load().done]: it runs when the load has
    completed, on the editor and the model as they are then. *)
Definition loadDone (pending : PendingReload)
    (editor : IBaseEditor) (textModel : ITextFileEditorModel) : M unit :=
  if negb (getLastModifiedTime textModel =? pending_currentMtime pending)%Z
     && isEditorShowingPath editor (model_getResource textModel)
  then issue (RestoreViewState (pending_codeEditor pending) (pending_viewState pending))
  else ret tt.

(** The file input the update handling looks at for a visible editor:
    [editor.input], or the matching side of a side by side input. *)
Definition updateInputOf (e : FileChangesEvent) (editor : IBaseEditor)
    : option FileEditorInput :=
  match input editor with
  | Some (SideBySideInput master details) =>
      getMatchingFileEditorInputFromSideBySide master details e
  | Some (FileInput f) => Some f
  | _ => None
  end.

(** The input that passes the two tests at the head of the [forEach] of
    [handleUpdatesToVisibleEditors]: a file input for whose resource the
    event has an update or an addition. *)
Definition updateCandidate (e : FileChangesEvent) (editor : IBaseEditor)
    : option FileEditorInput :=
  match updateInputOf e editor with
  | Some f =>
      (* Input got added or updated, so check for model and update *)
      if contains isLinux e (getResource f) UPDATED
         || contains isLinux e (getResource f) ADDED
      then Some f
      else None
  | None => None
  end.

(** The body of the [forEach] of [handleUpdatesToVisibleEditors]; [now] is
    what [Date.now()] answers while this editor is looked at. *)
Definition updateVisibleEditor (models : ITextFileEditorModelManager)
    (e : FileChangesEvent) (now : Z) (editor : IBaseEditor) : M unit :=
  match updateCandidate e editor with
  | Some f =>
      let fileInputResource := getResource f in
      match models fileInputResource with
      | Some textModel =>
          (* We only ever update models that are in good saved state *)
          if ModelState_eqb (getState textModel) SAVED then
            let lastSaveTime := getLastSaveAttemptTime textModel in
            if (now - lastSaveTime >? FILE_CHANGE_UPDATE_DELAY)%Z then
              let codeEditor := getControl editor in
              let viewState := saveViewState codeEditor in
              let currentMtime := getLastModifiedTime textModel in
              issue (Load textModel
                       {| pending_codeEditor := codeEditor;
                          pending_viewState := viewState;
                          pending_currentMtime := currentMtime |})
            else ret tt
          else ret tt
      | None =>
          (* Binary file: always update *)
          if String.eqb (getId editor) BINARY_FILE_EDITOR_ID
          then issue (ReopenInput (input editor) true true (position editor))
          else ret tt
      end
  | None => ret tt
  end.

Fixpoint forEachFrom {A} (k : nat) (l : list A) (f : nat -> A -> M unit) : M unit :=
  match l with
  | [] => ret tt
  | x :: rest => f k x ;; forEachFrom (S k) rest f
  end.

(** [handleUpdatesToVisibleEditors(e)], on the editors that
    [editorService.getVisibleEditors()] answers; [clock k] is the reading of
    [Date.now()] while the editor at index [k] is looked at. *)
Definition handleUpdatesToVisibleEditors (editors : list IBaseEditor)
    (models : ITextFileEditorModelManager) (clock : nat -> Z)
    (e : FileChangesEvent) : M unit :=
  forEachFrom 0 editors (fun k editor => updateVisibleEditor models e (clock k) editor).

Definition onFileChanges (editors : list IBaseEditor)
    (models : ITextFileEditorModelManager) (clock : nat -> Z)
    (stacks : IEditorStacksModel) (e : FileChangesEvent) : M unit :=
  (* Handle updates to visible editors *)
  handleUpdatesToVisibleEditors editors models clock e ;;
  (* Handle deletes *)
  if gotDeleted e then handleDeletes stacks (inr e) None else ret tt.

(** [onLocalFileChange(e)].  The stacks model is read twice: by
    [handleMovedFileInOpenedEditors] ([stacks]) and, after the editor
    service has been asked to re-open editors, by [getOpenedFileInputs]
    ([stacks']). *)
Definition onLocalFileChange (stacks stacks' : IEditorStacksModel)
    (e : LocalFileChangeEvent) : M unit :=
  let movedTo :=
    if local_gotMoved e
    then match getAfter e with
         | Some after => Some (stat_resource after)
         | None => None
         end
    else None in
  (* Handle moves specially when file is opened *)
  match movedTo with
  | Some _ =>
      let before := getBefore e in
      let after := getAfter e in
      handleMovedFileInOpenedEditors stacks
        (option_map stat_resource before) (option_map stat_resource after)
  | None => ret tt
  end ;;
  (* Handle deletes *)
  if local_gotDeleted e || match movedTo with Some _ => true | None => false end
  then
    beforeResource <- deref (getBefore e) stat_resource ;;
    handleDeletes stacks' (inl beforeResource) movedTo
  else ret tt.

End FileEditorTracker.

(* ================================================================== *)
(** ** The open editors after a pass *)
(* ================================================================== *)

Definition URI_eqb (a b : URI) : bool := String.eqb (fsPath a) (fsPath b).

Definition FileEditorInput_eqb (a b : FileEditorInput) : bool :=
  Nat.eqb (input_id a) (input_id b)
  && URI_eqb (getResource a) (getResource b)
  && Bool.eqb (isDirty a) (isDirty b).

(** [input.dispose()] was called on [f] in the log. *)
Definition disposedIn (log : list Command) (f : FileEditorInput) : bool :=
  existsb (fun c => match c with
                    | Dispose g => FileEditorInput_eqb f g
                    | _ => false
                    end) log.

Definition sideDisposedIn (log : list Command) (side : EditorInput) : bool :=
  match side with
  | FileInput f => disposedIn log f
  | _ => false
  end.

Definition stillOpen (log : list Command) (i : EditorInput) : bool :=
  match i with
  | FileInput f => negb (disposedIn log f)
  | SideBySideInput master details =>
      negb (sideDisposedIn log master) && negb (sideDisposedIn log details)
  | OtherInput _ => true
  end.

(** Modelled from the spec: the reaction of the open-handle registry (the
    editor groups, not under src/) to the calls of a pass.  A handle is
    "destroyed (disposed) only by explicit command": an input that was
    disposed is no longer among the editors of its group, and neither is a
    side by side input one of whose sides was disposed.  Re-loading a model
    and re-opening the input that an editor already shows leave the set of
    open editors as it is. *)
Definition closeDisposed (log : list Command) (stacks : IEditorStacksModel)
    : IEditorStacksModel :=
  mkStacks
    (map (fun group =>
            mkGroup (filter (stillOpen log) (getEditors group))
                    (isPinned group) (indexOf group) (isActive group)
                    (group_position group))
         (groups stacks)).

(** The open editors once a batch event has been handled. *)
Definition afterFileChanges (isLinux : bool) (editors : list IBaseEditor)
    (models : ITextFileEditorModelManager) (clock : nat -> Z)
    (e : FileChangesEvent) (stacks : IEditorStacksModel) : IEditorStacksModel :=
  closeDisposed (commands (onFileChanges isLinux editors models clock stacks e)) stacks.

(** The file inputs that a visible editor shows: its input, or the sides of
    its side by side input. *)
Definition visibleFileInputs (editor : IBaseEditor) : list FileEditorInput :=
  match input editor with
  | Some (FileInput f) => [f]
  | Some (SideBySideInput master details) => fileInputOf master ++ fileInputOf details
  | _ => []
  end.

(** In the words of the spec: the editor is no longer "showing the same
    resource" when the load completes.  The handle it showed was disposed
    and the editing surface closed it (no input, or not visible), or the
    editor was pointed at something else. *)
Inductive NoLongerShowing (resource : URI) (editor : IBaseEditor) : Prop :=
| Closed : input editor = None -> NoLongerShowing resource editor
| Hidden : isVisible editor = false -> NoLongerShowing resource editor
| Repointed : forall f,
    input editor = Some (FileInput f) ->
    getResource f <> resource ->
    NoLongerShowing resource editor
| RepointedMaster : forall f details,
    input editor = Some (SideBySideInput (FileInput f) details) ->
    getResource f <> resource ->
    NoLongerShowing resource editor
| NotAFile : forall id,
    input editor = Some (OtherInput id) ->
    NoLongerShowing resource editor.

(** The delete/move handling of the spec (4.2), as a test on one handle:
    not dirty, not the move destination, and matched by the notification. *)
Definition shouldDispose (isLinux : bool) (arg1 : URI + FileChangesEvent)
    (movedTo : option URI) (i : FileEditorInput) : bool :=
  negb (isDirty i)
  && negb (match movedTo with
           | Some target => String.eqb (fsPath target) (fsPath (getResource i))
           | None => false
           end)
  && match arg1 with
     | inr e => contains isLinux e (getResource i) DELETED
     | inl uri =>
         paths.isEqualOrParent isLinux
           (URI_toString (getResource i)) (URI_toString uri)
     end.

(** The re-open that the move handling asks for, for the editor [i] of
    [group], at [resource]: the pinned state, the index and the activity of
    the editor are handed on as the group answers them. *)
Definition reopenAt (stacks : IEditorStacksModel) (group : IEditorGroup)
    (i : EditorInput) (resource : URI) : Command :=
  OpenResource (Some resource)
    {| opt_preserveFocus := true;
       opt_pinned := isPinned group i;
       opt_index := indexOf group i;
       opt_inactive := negb (isActive group i) |}
    (positionOfGroup stacks group).

(* ================================================================== *)
(** ** Scenarios *)
(* ================================================================== *)

Definition fileAt (id : nat) (path : string) (dirty : bool) : FileEditorInput :=
  mkFileInput id (mkURI path) dirty.

(** A group that answers the same for each of its editors: pinned, at index
    0 and active. *)
Definition groupOf (editors : list EditorInput) : IEditorGroup :=
  mkGroup editors (fun _ => true) (fun _ => 0%Z) (fun _ => true) 0%Z.

Definition stacksOf (editors : list EditorInput) : IEditorStacksModel :=
  mkStacks [groupOf editors].

Definition moved (before after : string) : LocalFileChangeEvent :=
  mkLocalEvent (Some (mkStat (mkURI before))) (Some (mkStat (mkURI after))) true false.

Definition deleted (before : string) : LocalFileChangeEvent :=
  mkLocalEvent (Some (mkStat (mkURI before))) None false true.

(** Two files of [/proj/src] are open, one of them with unsaved changes. *)
Definition unsavedA : FileEditorInput := fileAt 1 "/proj/src/a.ts" true.
Definition savedX : FileEditorInput := fileAt 2 "/proj/src/x.ts" false.
Definition projGroup : IEditorGroup :=
  groupOf [FileInput unsavedA; FileInput savedX].
Definition projEditors : IEditorStacksModel := mkStacks [projGroup].

(** The two files are the sides of one side by side editor. *)
Definition savedY : FileEditorInput := fileAt 3 "/proj/src/y.ts" false.
Definition sideBySideEditors : IEditorStacksModel :=
  stacksOf [SideBySideInput (FileInput savedX) (FileInput savedY)].



(** A move is reported, but what was there before is missing. *)
Definition movedWithoutBefore : LocalFileChangeEvent :=
  mkLocalEvent None (Some (mkStat (mkURI "/proj/lib"))) true false.

(** Visible editors, a text model and batch events. *)
Definition textEditorOf (i : EditorInput) : IBaseEditor :=
  mkEditor "workbench.editors.files.textFileEditor" (Some i) 0%Z true (mkControl 7 42).

Definition binaryEditorOf (i : EditorInput) : IBaseEditor :=
  mkEditor BINARY_FILE_EDITOR_ID (Some i) 0%Z true (mkControl 8 0).

Definition updatedEvent (path : string) : FileChangesEvent :=
  mkFileChangesEvent [mkChange UPDATED (mkURI path)].

Definition addedEvent (path : string) : FileChangesEvent :=
  mkFileChangesEvent [mkChange ADDED (mkURI path)].

Definition modelsOf (m : ITextFileEditorModel) : ITextFileEditorModelManager :=
  fun resource => if URI_eqb resource (model_getResource m) then Some m else None.

Definition noModels : ITextFileEditorModelManager := fun _ => None.

(** The model of [/proj/src/x.ts], saved at time 10000 and last modified at
    time 9000. *)
Definition modelX : ITextFileEditorModel :=
  mkModel (mkURI "/proj/src/x.ts") SAVED 10000 9000.

Definition image : FileEditorInput := fileAt 6 "/img/a.png" false.

(** A side by side editor of [x.ts] and [y.ts], and an event that reports
    an update of both. *)
Definition sideBySideEditor : IBaseEditor :=
  textEditorOf (SideBySideInput (FileInput savedX) (FileInput savedY)).

Definition bothUpdated : FileChangesEvent :=
  mkFileChangesEvent [mkChange UPDATED (mkURI "/proj/src/x.ts");
                      mkChange UPDATED (mkURI "/proj/src/y.ts")].

(** The editor of [x.ts] after it was closed, and after it was pointed at
    [y.ts]; the model of [x.ts] after a load that found a newer file. *)
Definition closedEditor : IBaseEditor :=
  mkEditor "workbench.editors.files.textFileEditor" None 0%Z true (mkControl 7 42).

Definition reloadedModelX : ITextFileEditorModel :=
  mkModel (mkURI "/proj/src/x.ts") SAVED 10000 12000.

Definition pendingX : PendingReload :=
  {| pending_codeEditor := mkControl 7 42;
     pending_viewState := 42%nat;
     pending_currentMtime := 9000 |}.

(** A batch event that reports the deletion of [x.ts] and [a.ts]. *)
Definition bothDeleted : FileChangesEvent :=
  mkFileChangesEvent [mkChange DELETED (mkURI "/proj/src/x.ts");
                      mkChange DELETED (mkURI "/proj/src/a.ts")].

(** A file whose path differs in case from the folder that is moved, and
    repeats the name of the folder one level down. *)
Definition mixedCaseFile : FileEditorInput := fileAt 7 "/A/a/x.ts" false.
Definition mixedCaseGroup : IEditorGroup := groupOf [FileInput mixedCaseFile].
Definition mixedCaseEditors : IEditorStacksModel := mkStacks [mixedCaseGroup].

Definition savedXGroup : IEditorGroup := groupOf [FileInput savedX].
Definition savedXEditors : IEditorStacksModel := mkStacks [savedXGroup].

(** The model of [/proj/src/y.ts], saved at time 10000 as well, and the
    models of both files. *)
Definition modelY : ITextFileEditorModel :=
  mkModel (mkURI "/proj/src/y.ts") SAVED 10000 9500.

Definition modelsXY : ITextFileEditorModelManager :=
  fun resource =>
    if URI_eqb resource (model_getResource modelX) then Some modelX
    else if URI_eqb resource (model_getResource modelY) then Some modelY
    else None.

(** An event that reports an update of [y.ts] only. *)
Definition onlyYUpdated : FileChangesEvent := updatedEvent "/proj/src/y.ts".

(* ================================================================== *)
(** * Properties *)
(* ================================================================== *)

(** ** The handler monad *)

Lemma commands_bind {A B} (m : M A) (k : A -> M B) (c : Command) :
  In c (commands (bind m k)) ->
  In c (commands m) \/
  exists a, completion m = Returned a /\ In c (commands (k a)).
Proof.
  destruct m as [l [a | err]]; simpl.
  - destruct (k a) as [l' r] eqn:Hk. simpl. intros H.
    apply in_app_or in H as [H | H]; [now left | right].
    exists a. split; [reflexivity | now rewrite Hk].
  - now left.
Qed.

Lemma commands_bind_returned {A B} (m : M A) (k : A -> M B) (a : A) :
  completion m = Returned a ->
  commands (bind m k) = commands m ++ commands (k a).
Proof.
  destruct m as [l [a' | err]]; simpl; intros H; [| discriminate].
  injection H as ->. now destruct (k a).
Qed.

Lemma completion_bind_returned {A B} (m : M A) (k : A -> M B) (a : A) :
  completion m = Returned a ->
  completion (bind m k) = completion (k a).
Proof.
  destruct m as [l [a' | err]]; simpl; intros H; [| discriminate].
  injection H as ->. now destruct (k a).
Qed.

Lemma in_commands_forEach {A} (l : list A) (f : A -> M unit) (c : Command) :
  In c (commands (forEach l f)) ->
  exists x, In x l /\ In c (commands (f x)).
Proof.
  induction l as [| x rest IH]; simpl; [tauto |].
  intros H. apply commands_bind in H as [H | (_ & _ & H)].
  - exists x. auto.
  - destruct (IH H) as (y & Hy & Hc). exists y. auto.
Qed.

Lemma forEach_returned {A} (l : list A) (f : A -> M unit) :
  (forall x, In x l -> completion (f x) = Returned tt) ->
  forEach l f = (flat_map (fun x => commands (f x)) l, Returned tt).
Proof.
  induction l as [| x rest IH]; simpl; intros H; [reflexivity |].
  assert (Hx : completion (f x) = Returned tt) by (apply H; now left).
  rewrite IH by (intros y Hy; apply H; now right).
  destruct (f x) as [lx rx]. simpl in *. now subst rx.
Qed.

Lemma in_commands_forEachFrom {A} (l : list A) (f : nat -> A -> M unit)
    (k : nat) (c : Command) :
  In c (commands (forEachFrom k l f)) ->
  exists j x, nth_error l j = Some x /\ In c (commands (f (k + j)%nat x)).
Proof.
  revert k. induction l as [| x rest IH]; simpl; intros k H; [tauto |].
  apply commands_bind in H as [H | (_ & _ & H)].
  - exists 0%nat, x. rewrite Nat.add_0_r. auto.
  - destruct (IH _ H) as (j & y & Hj & Hc).
    exists (S j), y. rewrite Nat.add_succ_r. auto.
Qed.

Lemma forEachFrom_returned {A} (l : list A) (f : nat -> A -> M unit) (k : nat) :
  (forall j x, completion (f j x) = Returned tt) ->
  completion (forEachFrom k l f) = Returned tt /\
  forall j x c, nth_error l j = Some x ->
                In c (commands (f (k + j)%nat x)) ->
                In c (commands (forEachFrom k l f)).
Proof.
  intros Hf. revert k. induction l as [| x rest IH]; simpl; intros k.
  - split; [reflexivity |]. intros [| j] y c; discriminate.
  - destruct (IH (S k)) as [Hret Hin].
    split.
    + rewrite (completion_bind_returned _ _ tt) by apply Hf. exact Hret.
    + intros j y c Hj Hc.
      rewrite (commands_bind_returned _ _ tt) by apply Hf.
      apply in_or_app. destruct j as [| j]; simpl in Hj.
      * injection Hj as ->. rewrite Nat.add_0_r in Hc. now left.
      * right. apply (Hin j y c Hj). now rewrite Nat.add_succ_r in Hc.
Qed.

(** ** Delete handling *)

Lemma handleDeletes_filter (isLinux : bool) (stacks : IEditorStacksModel)
    (arg1 : URI + FileChangesEvent) (movedTo : option URI) :
  handleDeletes isLinux stacks arg1 movedTo =
  (map Dispose (filter (shouldDispose isLinux arg1 movedTo)
                       (getOpenedFileInputs stacks)),
   Returned tt).
Proof.
  unfold handleDeletes.
  induction (getOpenedFileInputs stacks) as [| i rest IH]; simpl; [reflexivity |].
  rewrite IH. unfold shouldDispose.
  destruct (isDirty i); simpl; [reflexivity |].
  destruct (match movedTo with Some _ => _ | None => false end); simpl;
    [reflexivity |].
  destruct (match arg1 with inl _ => _ | inr _ => _ end); reflexivity.
Qed.

Lemma in_handleDeletes (isLinux : bool) (stacks : IEditorStacksModel)
    (arg1 : URI + FileChangesEvent) (movedTo : option URI) (c : Command) :
  In c (commands (handleDeletes isLinux stacks arg1 movedTo)) <->
  exists i, c = Dispose i /\ In i (getOpenedFileInputs stacks)
            /\ shouldDispose isLinux arg1 movedTo i = true.
Proof.
  rewrite handleDeletes_filter. simpl. rewrite in_map_iff. split.
  - intros (i & <- & H). apply filter_In in H. exists i. tauto.
  - intros (i & -> & H). exists i. split; [reflexivity |]. now apply filter_In.
Qed.

(** ** What each handler can ask for *)

Ltac break_if_in H :=
  repeat match type of H with
         | context [if ?b then _ else _] => destruct b eqn:?; simpl in H
         end.

Lemma handleMoved_only_opens (isLinux : bool) (stacks : IEditorStacksModel)
    (oldResource newResource : option URI) (c : Command) :
  In c (commands (handleMovedFileInOpenedEditors isLinux stacks
                    oldResource newResource)) ->
  exists r opts p, c = OpenResource r opts p.
Proof.
  unfold handleMovedFileInOpenedEditors. intros H.
  apply in_commands_forEach in H as (group & _ & H).
  apply in_commands_forEach in H as (i & _ & H).
  unfold reopenMovedEditor in H.
  destruct i as [f | master details | id]; simpl in H; try tauto.
  destruct oldResource as [old |], newResource as [new_ |]; simpl in H;
    try tauto; break_if_in H; simpl in H;
    repeat match type of H with
           | _ \/ _ => destruct H as [H | H]
           | False => contradiction
           end; subst c; eauto.
Qed.

Lemma updateVisibleEditor_returns (isLinux : bool)
    (models : ITextFileEditorModelManager) (e : FileChangesEvent)
    (now : Z) (editor : IBaseEditor) :
  completion (updateVisibleEditor isLinux models e now editor) = Returned tt.
Proof.
  unfold updateVisibleEditor.
  destruct (updateCandidate isLinux e editor) as [f |]; [| reflexivity].
  destruct (models (getResource f)) as [textModel |].
  - destruct (ModelState_eqb _ _); [| reflexivity].
    destruct (_ >? _)%Z; reflexivity.
  - destruct (String.eqb _ _); reflexivity.
Qed.

Lemma updateVisibleEditor_never_disposes (isLinux : bool)
    (models : ITextFileEditorModelManager) (e : FileChangesEvent)
    (now : Z) (editor : IBaseEditor) (i : FileEditorInput) :
  ~ In (Dispose i) (commands (updateVisibleEditor isLinux models e now editor)).
Proof.
  unfold updateVisibleEditor.
  destruct (updateCandidate isLinux e editor) as [f |]; simpl; [| tauto].
  destruct (models (getResource f)) as [textModel |].
  - destruct (ModelState_eqb _ _); simpl; [| tauto].
    destruct (_ >? _)%Z; simpl; [| tauto]. intros [H | []]. discriminate.
  - destruct (String.eqb _ _); simpl; [| tauto]. intros [H | []]. discriminate.
Qed.

Lemma handleUpdates_never_disposes (isLinux : bool) (editors : list IBaseEditor)
    (models : ITextFileEditorModelManager) (clock : nat -> Z)
    (e : FileChangesEvent) (i : FileEditorInput) :
  ~ In (Dispose i)
       (commands (handleUpdatesToVisibleEditors isLinux editors models clock e)).
Proof.
  unfold handleUpdatesToVisibleEditors. intros H.
  apply in_commands_forEachFrom in H as (j & editor & _ & H).
  exact (updateVisibleEditor_never_disposes _ _ _ _ _ _ H).
Qed.

Lemma handleUpdates_returns (isLinux : bool) (editors : list IBaseEditor)
    (models : ITextFileEditorModelManager) (clock : nat -> Z)
    (e : FileChangesEvent) :
  completion (handleUpdatesToVisibleEditors isLinux editors models clock e)
  = Returned tt.
Proof.
  unfold handleUpdatesToVisibleEditors.
  apply forEachFrom_returned. intros. apply updateVisibleEditor_returns.
Qed.

(** Every [dispose] of a handling of a batch event comes from
    [handleDeletes]. *)
Lemma onFileChanges_disposes (isLinux : bool) (editors : list IBaseEditor)
    (models : ITextFileEditorModelManager) (clock : nat -> Z)
    (stacks : IEditorStacksModel) (e : FileChangesEvent) (i : FileEditorInput) :
  In (Dispose i) (commands (onFileChanges isLinux editors models clock stacks e)) <->
  gotDeleted e = true /\
  In i (getOpenedFileInputs stacks) /\
  shouldDispose isLinux (inr e) None i = true.
Proof.
  unfold onFileChanges.
  rewrite (commands_bind_returned _ _ tt) by apply handleUpdates_returns.
  rewrite in_app_iff. split.
  - intros [H | H]; [now apply handleUpdates_never_disposes in H |].
    destruct (gotDeleted e); [| simpl in H; tauto].
    apply in_handleDeletes in H as (i' & Heq & Hin & Hd).
    injection Heq as ->. auto.
  - intros (Hg & Hin & Hd). right. rewrite Hg.
    apply in_handleDeletes. eauto.
Qed.

(** Every [dispose] of a handling of a local event comes from
    [handleDeletes], on the stacks model read there. *)
Lemma onLocalFileChange_disposes (isLinux : bool)
    (stacks stacks' : IEditorStacksModel) (e : LocalFileChangeEvent)
    (i : FileEditorInput) :
  In (Dispose i) (commands (onLocalFileChange isLinux stacks stacks' e)) ->
  exists before movedTo,
    In i (getOpenedFileInputs stacks') /\
    shouldDispose isLinux (inl before) movedTo i = true /\
    (local_gotMoved e = true -> movedTo = option_map stat_resource (getAfter e)).
Proof.
  unfold onLocalFileChange. intros H.
  apply commands_bind in H as [H | (_ & _ & H)].
  - destruct (if local_gotMoved e then _ else None); simpl in H; [| tauto].
    apply handleMoved_only_opens in H as (r & opts & p & H). discriminate.
  - destruct (local_gotDeleted e || _); simpl in H; [| tauto].
    apply commands_bind in H as [H | (before & Hb & H)].
    + destruct (getBefore e); simpl in H; tauto.
    + apply in_handleDeletes in H as (i' & Heq & Hin & Hd).
      injection Heq as ->. exists before. eexists. split; [exact Hin |].
      split; [exact Hd |]. intros ->. now destruct (getAfter e).
Qed.

(** ** Strings and paths *)

Lemma length_append (a b : string) :
  String.length (a ++ b) = (String.length a + String.length b)%nat.
Proof. induction a as [| c a IH]; simpl; [reflexivity | now rewrite IH]. Qed.

Lemma prefix_append (a b : string) : String.prefix a (a ++ b) = true.
Proof.
  induction a as [| c a IH]; simpl.
  - now destruct b.
  - destruct (ascii_dec c c) as [_ | Hc]; [exact IH | now elim Hc].
Qed.

Lemma drop_append (a b : string) : JS.drop (String.length a) (a ++ b) = b.
Proof. induction a as [| c a IH]; simpl; [now destruct b | exact IH]. Qed.

Lemma toLowerCase_append (a b : string) :
  JS.toLowerCase (a ++ b) = (JS.toLowerCase a ++ JS.toLowerCase b)%string.
Proof. induction a as [| c a IH]; simpl; [reflexivity | now rewrite IH]. Qed.

Lemma append_assoc (a b c : string) : ((a ++ b) ++ c = a ++ (b ++ c))%string.
Proof. induction a as [| x a IH]; simpl; [reflexivity | now rewrite IH]. Qed.

Lemma append_neq_self (a b : string) : b <> EmptyString -> (a ++ b)%string <> a.
Proof.
  intros Hb Heq. apply (f_equal String.length) in Heq.
  rewrite length_append in Heq. destruct b; [now apply Hb | simpl in Heq; lia].
Qed.

Lemma indexOf_prefix (hay needle : string) :
  String.prefix needle hay = true -> JS.indexOf hay needle = 0%Z.
Proof.
  unfold JS.indexOf. intros H.
  destruct hay; cbn [JS.indexOfFrom]; now rewrite H.
Qed.

Lemma substr_after_prefix (a rest : string) :
  JS.substr (a ++ "/" ++ rest) (0 + Z.of_nat (String.length a) + 1) = rest.
Proof.
  unfold JS.substr. rewrite !length_append. simpl String.length.
  destruct (_ <? 0)%Z eqn:Hneg; [apply Z.ltb_lt in Hneg; lia |].
  replace (Z.to_nat _) with (String.length (a ++ "/")).
  - rewrite <- (drop_append (a ++ "/") rest) at 2. now rewrite append_assoc.
  - rewrite length_append. simpl. lia.
Qed.

Lemma isEqualOrParent_refl (isLinux : bool) (p : string) :
  paths.isEqualOrParent isLinux p p = true.
Proof. unfold paths.isEqualOrParent. now rewrite String.eqb_refl. Qed.

Lemma stripTrailingSep_cases (s : string) :
  s = paths.stripTrailingSep s \/ s = (paths.stripTrailingSep s ++ "/")%string.
Proof.
  induction s as [| c rest IH]; [now left |].
  destruct rest as [| d rest'].
  - simpl. destruct (Ascii.eqb c "/") eqn:Hc; [| now left].
    apply Ascii.eqb_eq in Hc. subst c. now right.
  - change (paths.stripTrailingSep (String c (String d rest')))
      with (String c (paths.stripTrailingSep (String d rest'))).
    destruct IH as [IH | IH].
    + left. now rewrite <- IH.
    + right. rewrite IH at 1. reflexivity.
Qed.

(** A path literally nested under [candidate] is matched on every host. *)
Lemma isEqualOrParent_nested (isLinux : bool) (candidate rest : string) :
  paths.isEqualOrParent isLinux (candidate ++ "/" ++ rest) candidate = true.
Proof.
  unfold paths.isEqualOrParent, paths.sep.
  destruct (String.eqb _ candidate); [reflexivity |].
  destruct (String.eqb _ (paths.stripTrailingSep candidate)); [reflexivity |].
  assert (Hshape : exists rest',
             (candidate ++ "/" ++ rest
              = paths.stripTrailingSep candidate ++ "/" ++ rest')%string).
  { destruct (stripTrailingSep_cases candidate) as [H | H].
    - exists rest. now rewrite <- H.
    - exists ("/" ++ rest)%string. rewrite H at 1. now rewrite append_assoc. }
  destruct Hshape as (rest' & ->).
  destruct isLinux.
  - destruct (String.eqb _ _); [reflexivity |].
    rewrite <- append_assoc. apply prefix_append.
  - destruct (String.eqb _ _); [reflexivity |].
    rewrite toLowerCase_append, (toLowerCase_append "/" rest').
    change (JS.toLowerCase "/") with "/"%string.
    rewrite <- append_assoc. apply prefix_append.
Qed.

Lemma prefix_inv (a b : string) :
  String.prefix a b = true -> exists rest, b = (a ++ rest)%string.
Proof.
  revert b. induction a as [| c a IH]; intros b H.
  - now exists b.
  - destruct b as [| d b]; simpl in H; [discriminate |].
    destruct (ascii_dec c d) as [-> | _]; [| discriminate].
    destruct (IH b H) as (rest & ->). now exists rest.
Qed.

(** On a host that compares with regard to case, the test of the paths API
    holds for the path that the candidate names, with or without its
    trailing separator, and for the paths literally nested under it, and
    for no other. *)
Lemma isEqualOrParent_case_sensitive (path candidate : string) :
  paths.isEqualOrParent true path candidate = true <->
  path = candidate \/ path = paths.stripTrailingSep candidate \/
  exists rest, path = (paths.stripTrailingSep candidate ++ "/" ++ rest)%string.
Proof.
  unfold paths.isEqualOrParent, paths.sep.
  destruct (String.eqb path candidate) eqn:Heq.
  { apply String.eqb_eq in Heq. tauto. }
  destruct (String.eqb path (paths.stripTrailingSep candidate)) eqn:Heq0.
  { apply String.eqb_eq in Heq0. tauto. }
  apply String.eqb_neq in Heq, Heq0. split.
  - intros H. right. right. apply prefix_inv in H as (rest & ->).
    exists rest. apply append_assoc.
  - intros [H | [H | (rest & ->)]]; try contradiction.
    rewrite <- append_assoc. apply prefix_append.
Qed.

Lemma join_separates (a b : string) :
  JS.endsWithChar a "/" = false ->
  JS.startsWith b "/" = false ->
  paths.join a b = (a ++ "/" ++ b)%string.
Proof. unfold paths.join, paths.sep. now intros -> ->. Qed.

(** ** Move handling *)

Lemma in_forEach_returned {A} (l : list A) (f : A -> M unit) :
  (forall x, In x l -> completion (f x) = Returned tt) ->
  completion (forEach l f) = Returned tt /\
  forall x c, In x l -> In c (commands (f x)) -> In c (commands (forEach l f)).
Proof.
  intros H. rewrite (forEach_returned l f H). split; [reflexivity |].
  intros x c Hx Hc. simpl. apply in_flat_map. eauto.
Qed.

(** What [reopenMovedEditor] asks for when neither resource is [null]. *)
Lemma reopenMovedEditor_file (isLinux : bool) (stacks : IEditorStacksModel)
    (old new_ : URI) (group : IEditorGroup) (f : FileEditorInput) :
  reopenMovedEditor isLinux stacks (Some old) (Some new_) group (FileInput f) =
  (if paths.isEqualOrParent isLinux (fsPath (getResource f)) (fsPath old)
   then [OpenResource
           (if String.eqb (URI_toString old) (URI_toString (getResource f))
            then Some new_
            else Some (URI_file
                   (paths.join (fsPath new_)
                      (JS.substr (fsPath (getResource f))
                         (JS.indexOf (fsPath (getResource f)) (fsPath old)
                          + Z.of_nat (String.length (fsPath old)) + 1)))))
           {| opt_preserveFocus := true;
              opt_pinned := isPinned group (FileInput f);
              opt_index := indexOf group (FileInput f);
              opt_inactive := negb (isActive group (FileInput f)) |}
           (positionOfGroup stacks group)]
   else [],
   Returned tt).
Proof.
  unfold reopenMovedEditor. simpl.
  destruct (paths.isEqualOrParent _ _ _); simpl; [| reflexivity].
  destruct (String.eqb _ _); reflexivity.
Qed.

Lemma reopenMovedEditor_returns (isLinux : bool) (stacks : IEditorStacksModel)
    (old new_ : URI) (group : IEditorGroup) (i : EditorInput) :
  completion (reopenMovedEditor isLinux stacks (Some old) (Some new_) group i)
  = Returned tt.
Proof.
  destruct i as [f | master details | id]; try reflexivity.
  rewrite reopenMovedEditor_file. reflexivity.
Qed.

(** With both resources at hand the move handling runs to its end, and asks
    for everything that the visit of each editor asks for. *)
Lemma handleMoved_collects (isLinux : bool) (stacks : IEditorStacksModel)
    (old new_ : URI) :
  completion (handleMovedFileInOpenedEditors isLinux stacks (Some old) (Some new_))
  = Returned tt /\
  forall group i c,
    In group (groups stacks) -> In i (getEditors group) ->
    In c (commands (reopenMovedEditor isLinux stacks (Some old) (Some new_) group i)) ->
    In c (commands (handleMovedFileInOpenedEditors isLinux stacks (Some old) (Some new_))).
Proof.
  unfold handleMovedFileInOpenedEditors.
  assert (Hinner : forall group,
    completion (forEach (getEditors group)
                  (reopenMovedEditor isLinux stacks (Some old) (Some new_) group))
    = Returned tt /\
    forall i c, In i (getEditors group) ->
      In c (commands (reopenMovedEditor isLinux stacks (Some old) (Some new_) group i)) ->
      In c (commands (forEach (getEditors group)
                        (reopenMovedEditor isLinux stacks (Some old) (Some new_) group)))).
  { intros group. apply in_forEach_returned.
    intros i _. apply reopenMovedEditor_returns. }
  match goal with
  | |- completion (forEach ?l ?f) = _ /\ _ =>
      destruct (in_forEach_returned l f) as [Hret Hin]
  end.
  { intros group _. apply Hinner. }
  split; [exact Hret |].
  intros group i c Hg Hi Hc. apply (Hin group c Hg).
  now apply (proj2 (Hinner group) i c).
Qed.

(** The move handling asks for nothing but the re-opening of file inputs of
    the groups that the paths API finds equal to or under the old resource:
    every other editor is left alone. *)
Lemma handleMoved_only_under_old (isLinux : bool) (stacks : IEditorStacksModel)
    (old new_ : URI) (c : Command) :
  In c (commands (handleMovedFileInOpenedEditors isLinux stacks
                    (Some old) (Some new_))) ->
  exists group f resource,
    In group (groups stacks) /\
    In (FileInput f) (getEditors group) /\
    paths.isEqualOrParent isLinux (fsPath (getResource f)) (fsPath old) = true /\
    c = reopenAt stacks group (FileInput f) resource.
Proof.
  unfold handleMovedFileInOpenedEditors. intros H.
  apply in_commands_forEach in H as (group & Hgroup & H).
  apply in_commands_forEach in H as (i & Hi & H).
  destruct i as [f | master details | id]; try (simpl in H; contradiction).
  rewrite reopenMovedEditor_file in H.
  destruct (paths.isEqualOrParent _ _ _) eqn:Hunder; simpl in H; [| contradiction].
  destruct H as [<- | []].
  exists group, f.
  destruct (String.eqb _ _); eexists; (repeat split); try eassumption;
    reflexivity.
Qed.

(** An opened file editor whose resource is the moved one is re-opened at
    the new resource. *)
Lemma handleMoved_reopens_moved_file (isLinux : bool) (stacks : IEditorStacksModel)
    (group : IEditorGroup) (f : FileEditorInput) (new_ : URI) :
  In group (groups stacks) ->
  In (FileInput f) (getEditors group) ->
  In (reopenAt stacks group (FileInput f) new_)
     (commands (handleMovedFileInOpenedEditors isLinux stacks
                  (Some (getResource f)) (Some new_))).
Proof.
  intros Hgroup Hf.
  apply (proj2 (handleMoved_collects isLinux stacks (getResource f) new_)
               group (FileInput f) _ Hgroup Hf).
  rewrite reopenMovedEditor_file, isEqualOrParent_refl, String.eqb_refl.
  now left.
Qed.

(** ** Update handling *)

Lemma ModelState_eqb_SAVED (st : ModelState) :
  ModelState_eqb st SAVED = true <-> st = SAVED.
Proof. destruct st; simpl; split; congruence. Qed.

Lemma handleUpdates_collects (isLinux : bool) (editors : list IBaseEditor)
    (models : ITextFileEditorModelManager) (clock : nat -> Z)
    (e : FileChangesEvent) (k : nat) (editor : IBaseEditor) (c : Command) :
  nth_error editors k = Some editor ->
  In c (commands (updateVisibleEditor isLinux models e (clock k) editor)) ->
  In c (commands (handleUpdatesToVisibleEditors isLinux editors models clock e)).
Proof.
  intros Hk Hc. unfold handleUpdatesToVisibleEditors.
  refine (proj2 (forEachFrom_returned editors
                   (fun k editor => updateVisibleEditor isLinux models e (clock k) editor)
                   0 _) k editor c Hk Hc).
  intros. apply updateVisibleEditor_returns.
Qed.

Lemma in_handleUpdates (isLinux : bool) (editors : list IBaseEditor)
    (models : ITextFileEditorModelManager) (clock : nat -> Z)
    (e : FileChangesEvent) (c : Command) :
  In c (commands (handleUpdatesToVisibleEditors isLinux editors models clock e)) ->
  exists k editor,
    nth_error editors k = Some editor /\
    In c (commands (updateVisibleEditor isLinux models e (clock k) editor)).
Proof.
  unfold handleUpdatesToVisibleEditors. intros H.
  apply in_commands_forEachFrom in H as (k & editor & Hk & H). eauto.
Qed.

(** A load is asked for only for a saved model whose last save attempt is
    more than the delay ago; it remembers the view state of the editor and
    the modification time of the model. *)
Lemma updateVisibleEditor_load (isLinux : bool)
    (models : ITextFileEditorModelManager) (e : FileChangesEvent)
    (now : Z) (editor : IBaseEditor)
    (textModel : ITextFileEditorModel) (pending : PendingReload) :
  In (Load textModel pending)
     (commands (updateVisibleEditor isLinux models e now editor)) ->
  getState textModel = SAVED /\
  (now - getLastSaveAttemptTime textModel > FILE_CHANGE_UPDATE_DELAY)%Z /\
  pending = {| pending_codeEditor := getControl editor;
               pending_viewState := saveViewState (getControl editor);
               pending_currentMtime := getLastModifiedTime textModel |}.
Proof.
  unfold updateVisibleEditor.
  destruct (updateCandidate isLinux e editor) as [f |]; simpl; [| tauto].
  destruct (models (getResource f)) as [m |].
  - destruct (ModelState_eqb _ _) eqn:Hst; simpl; [| tauto].
    destruct (_ >? _)%Z eqn:Hlate; simpl; [| tauto].
    intros [H | []]. injection H as -> <-.
    apply ModelState_eqb_SAVED in Hst. apply Z.gtb_gt in Hlate. auto.
  - destruct (String.eqb _ _); simpl; [| tauto]. intros [H | []]. discriminate.
Qed.

(** The delay decides: for a candidate whose model is in the saved state
    the load is asked for exactly when more than the delay has passed since
    the last save attempt. *)
Lemma updateVisibleEditor_saved_model (isLinux : bool)
    (models : ITextFileEditorModelManager) (e : FileChangesEvent)
    (now : Z) (editor : IBaseEditor) (f : FileEditorInput)
    (textModel : ITextFileEditorModel) :
  updateCandidate isLinux e editor = Some f ->
  models (getResource f) = Some textModel ->
  getState textModel = SAVED ->
  commands (updateVisibleEditor isLinux models e now editor) =
  if (now - getLastSaveAttemptTime textModel >? 2000)%Z
  then [Load textModel
          {| pending_codeEditor := getControl editor;
             pending_viewState := saveViewState (getControl editor);
             pending_currentMtime := getLastModifiedTime textModel |}]
  else [].
Proof.
  intros Hcandidate Hmodel Hsaved. unfold updateVisibleEditor.
  rewrite Hcandidate, Hmodel, Hsaved. simpl.
  unfold FILE_CHANGE_UPDATE_DELAY. now destruct (_ >? _)%Z.
Qed.

Lemma updateCandidate_file (isLinux : bool) (e : FileChangesEvent)
    (editor : IBaseEditor) (f : FileEditorInput) :
  input editor = Some (FileInput f) ->
  updateCandidate isLinux e editor =
  if contains isLinux e (getResource f) UPDATED
     || contains isLinux e (getResource f) ADDED
  then Some f else None.
Proof. unfold updateCandidate, updateInputOf. now intros ->. Qed.

(** ** The callback of a load *)

Lemma URI_toString_inj (a b : URI) : URI_toString a = URI_toString b -> a = b.
Proof.
  unfold URI_toString. simpl. intros H. injection H as H.
  destruct a, b. simpl in H. now subst.
Qed.

Lemma toString_eqb_eq (a b : URI) :
  String.eqb (URI_toString a) (URI_toString b) = true <-> a = b.
Proof.
  split.
  - intros H. apply String.eqb_eq in H. now apply URI_toString_inj.
  - intros ->. apply String.eqb_refl.
Qed.

Lemma isEditorShowingPath_true (editor : IBaseEditor) (resource : URI) :
  isEditorShowingPath editor resource = true ->
  isVisible editor = true /\
  exists f,
    (input editor = Some (FileInput f) \/
     exists details, input editor = Some (SideBySideInput (FileInput f) details)) /\
    getResource f = resource.
Proof.
  unfold isEditorShowingPath.
  destruct (isVisible editor); cbn [negb]; [| discriminate].
  destruct (input editor) as [[f | [m | |] details | id] |];
    cbv beta iota zeta; try discriminate;
    intros H; apply toString_eqb_eq in H;
    (split; [reflexivity |]); eauto.
Qed.

Lemma isEditorShowingPath_no_longer (editor : IBaseEditor) (resource : URI) :
  NoLongerShowing resource editor ->
  isEditorShowingPath editor resource = false.
Proof.
  unfold isEditorShowingPath.
  intros [H | H | f H Hneq | f details H Hneq | id H]; rewrite H;
    try reflexivity; destruct (negb _); try reflexivity;
    cbv beta iota zeta;
    (destruct (String.eqb _ _) eqn:Heq; [| reflexivity]);
    apply toString_eqb_eq in Heq; contradiction.
Qed.

(** ** The open editors after a batch event *)

Lemma FileEditorInput_eqb_eq (a b : FileEditorInput) :
  FileEditorInput_eqb a b = true <-> a = b.
Proof.
  unfold FileEditorInput_eqb, URI_eqb. split.
  - intros H. apply andb_prop in H as [H Hd]. apply andb_prop in H as [Hi Hr].
    apply Nat.eqb_eq in Hi. apply String.eqb_eq in Hr. apply Bool.eqb_prop in Hd.
    destruct a as [ida [ra] da], b as [idb [rb] db]. simpl in *. now subst.
  - intros ->. now rewrite Nat.eqb_refl, String.eqb_refl, Bool.eqb_reflx.
Qed.

Lemma disposedIn_iff (log : list Command) (f : FileEditorInput) :
  disposedIn log f = true <-> In (Dispose f) log.
Proof.
  unfold disposedIn. rewrite existsb_exists. split.
  - intros (c & Hc & H). destruct c; try discriminate.
    apply FileEditorInput_eqb_eq in H. now subst.
  - intros H. exists (Dispose f). split; [exact H |].
    now apply FileEditorInput_eqb_eq.
Qed.

Lemma filter_filter_implied {A} (p q : A -> bool) (l : list A) :
  (forall x, In x l -> p x = true -> q x = true) ->
  filter q (filter p l) = filter p l.
Proof.
  induction l as [| x rest IH]; simpl; intros H; [reflexivity |].
  destruct (p x) eqn:Hp; simpl.
  - rewrite (H x (or_introl eq_refl) Hp). f_equal. apply IH. auto.
  - apply IH. auto.
Qed.

Lemma in_getOpenedFileInputs (stacks : IEditorStacksModel) (f : FileEditorInput) :
  In f (getOpenedFileInputs stacks) <->
  exists group i,
    In group (groups stacks) /\ In i (getEditors group) /\
    (i = FileInput f \/
     exists master details,
       i = SideBySideInput master details /\
       (master = FileInput f \/ details = FileInput f)).
Proof.
  unfold getOpenedFileInputs. rewrite in_flat_map. split.
  - intros (group & Hg & H). apply in_flat_map in H as (i & Hi & H).
    exists group, i. repeat split; try assumption.
    destruct i as [g | master details | id]; simpl in H.
    + destruct H as [-> | []]. now left.
    + right. exists master, details. split; [reflexivity |].
      apply in_app_or in H as [H | H];
        [destruct master | destruct details]; simpl in H;
        try contradiction; destruct H as [-> | []]; auto.
    + contradiction.
  - intros (group & i & Hg & Hi & H). exists group. split; [exact Hg |].
    apply in_flat_map. exists i. split; [exact Hi |].
    destruct H as [-> | (master & details & -> & [-> | ->])]; simpl; auto.
    apply in_or_app. right. simpl. auto.
Qed.

Lemma getOpenedFileInputs_closeDisposed (log : list Command)
    (stacks : IEditorStacksModel) (f : FileEditorInput) :
  In f (getOpenedFileInputs (closeDisposed log stacks)) ->
  In f (getOpenedFileInputs stacks).
Proof.
  rewrite !in_getOpenedFileInputs.
  intros (group' & i & Hg & Hi & H).
  unfold closeDisposed in Hg. simpl in Hg.
  apply in_map_iff in Hg as (group & <- & Hg). simpl in Hi.
  apply filter_In in Hi as [Hi _]. eauto.
Qed.

(** Handling the same batch event on the editors that are left disposes
    nothing that the first handling did not dispose. *)
Lemma second_pass_disposes_no_more (isLinux : bool)
    (editors editors' : list IBaseEditor)
    (models models' : ITextFileEditorModelManager) (clock clock' : nat -> Z)
    (e : FileChangesEvent) (stacks : IEditorStacksModel) (f : FileEditorInput) :
  disposedIn
    (commands (onFileChanges isLinux editors' models' clock'
                 (afterFileChanges isLinux editors models clock e stacks) e)) f = true ->
  disposedIn (commands (onFileChanges isLinux editors models clock stacks e)) f = true.
Proof.
  rewrite !disposedIn_iff, !onFileChanges_disposes.
  intros (Hg & Hin & Hd). repeat split; try assumption.
  now apply getOpenedFileInputs_closeDisposed in Hin.
Qed.

Lemma updateCandidate_master (isLinux : bool) (e : FileChangesEvent)
    (editor : IBaseEditor) (m : FileEditorInput) (details : EditorInput) :
  input editor = Some (SideBySideInput (FileInput m) details) ->
  contains isLinux e (getResource m) UPDATED = true ->
  updateCandidate isLinux e editor = Some m.
Proof.
  intros Hinput Hupdated.
  unfold updateCandidate, updateInputOf. rewrite Hinput.
  unfold getMatchingFileEditorInputFromSideBySide,
    getMatchingFileEditorInputFromInput.
  rewrite Hupdated. cbv beta iota. now rewrite Hupdated.
Qed.

Lemma updateCandidate_details (isLinux : bool) (e : FileChangesEvent)
    (editor : IBaseEditor) (master : EditorInput) (d : FileEditorInput) :
  input editor = Some (SideBySideInput master (FileInput d)) ->
  getMatchingFileEditorInputFromInput isLinux master e = None ->
  contains isLinux e (getResource d) UPDATED = true ->
  updateCandidate isLinux e editor = Some d.
Proof.
  intros Hinput Hmaster Hupdated.
  unfold updateCandidate, updateInputOf. rewrite Hinput.
  unfold getMatchingFileEditorInputFromSideBySide. rewrite Hmaster.
  unfold getMatchingFileEditorInputFromInput.
  rewrite Hupdated. cbv beta iota. now rewrite Hupdated.
Qed.

(** The input of a visible editor, the master of its side by side input,
    or the details side when the master does not match, is the candidate
    when the event has an update for it. *)
Lemma updateCandidate_looked_at (isLinux : bool) (e : FileChangesEvent)
    (editor : IBaseEditor) (f : FileEditorInput) :
  input editor = Some (FileInput f) \/
  (exists details, input editor = Some (SideBySideInput (FileInput f) details)) \/
  (exists master,
      input editor = Some (SideBySideInput master (FileInput f)) /\
      getMatchingFileEditorInputFromInput isLinux master e = None) ->
  contains isLinux e (getResource f) UPDATED = true ->
  updateCandidate isLinux e editor = Some f.
Proof.
  intros [Hinput | [(details & Hinput) | (master & Hinput & Hmaster)]] Hupdated.
  - now rewrite (updateCandidate_file _ _ _ _ Hinput), Hupdated.
  - now apply (updateCandidate_master _ _ _ _ details).
  - now apply (updateCandidate_details _ _ _ master).
Qed.

(** The input of a visible editor, or the master of its side by side
    input, is the candidate when the event has an update for it. *)
Lemma updateCandidate_shown (isLinux : bool) (e : FileChangesEvent)
    (editor : IBaseEditor) (f : FileEditorInput) :
  input editor = Some (FileInput f) \/
  (exists details, input editor = Some (SideBySideInput (FileInput f) details)) ->
  contains isLinux e (getResource f) UPDATED = true ->
  updateCandidate isLinux e editor = Some f.
Proof.
  intros [Hinput | (details & Hinput)] Hupdated.
  - now rewrite (updateCandidate_file _ _ _ _ Hinput), Hupdated.
  - now apply (updateCandidate_master _ _ _ _ details).
Qed.

(* ================================================================== *)
(** ** The claims *)
(* ================================================================== *)

(** C1.  An input with unsaved changes ([isDirty]) is never disposed: neither
    the handling of a batch event from disk nor the handling of a local
    delete or move asks for its [dispose], whatever the event and whatever
    editors are open. *)
Theorem dirty_input_never_disposed :
  forall (isLinux : bool) (i : FileEditorInput),
    isDirty i = true ->
    (forall editors models clock stacks e,
        ~ In (Dispose i)
             (commands (onFileChanges isLinux editors models clock stacks e))) /\
    (forall stacks stacks' e,
        ~ In (Dispose i)
             (commands (onLocalFileChange isLinux stacks stacks' e))) /\
    (forall stacks arg1 movedTo,
        ~ In (Dispose i)
             (commands (handleDeletes isLinux stacks arg1 movedTo))).
Proof.
  intros isLinux i Hdirty.
  assert (Hnot : forall arg1 movedTo, shouldDispose isLinux arg1 movedTo i = false).
  { intros. unfold shouldDispose. now rewrite Hdirty. }
  repeat split.
  - intros editors models clock stacks e H.
    apply onFileChanges_disposes in H as (_ & _ & H). now rewrite Hnot in H.
  - intros stacks stacks' e H.
    apply onLocalFileChange_disposes in H as (b & m & _ & H & _).
    now rewrite Hnot in H.
  - intros stacks arg1 movedTo H.
    apply in_handleDeletes in H as (i' & Heq & _ & H).
    injection Heq as <-. now rewrite Hnot in H.
Qed.

(** The folder of an unsaved and of a saved file is deleted: the saved file
    is disposed, the unsaved one is not. *)
Lemma dirty_input_never_disposed_witness :
  isDirty unsavedA = true /\
  ~ In (Dispose unsavedA)
       (commands (onLocalFileChange true projEditors projEditors (deleted "/proj/src"))) /\
  In (Dispose savedX)
     (commands (onLocalFileChange true projEditors projEditors (deleted "/proj/src"))).
Proof.
  split; [reflexivity |]. split.
  - apply (dirty_input_never_disposed true unsavedA eq_refl).
  - vm_compute. auto.
Defined.

(** The move rewriting where it does what it is meant to do.  On a move
    from [old] to [new_], an opened file editor whose
    resource is [old] itself is re-opened at [new_]; one whose path lies
    under [old] (the path of [old], a separator, and a remainder) is
    re-opened at the path of [new_] followed by the separator and the same
    remainder.  Paths are in normal form: the remainder does not begin and
    the new path does not end with a separator. *)
Theorem moved_editor_reopened_at_new_path :
  forall (isLinux : bool) (stacks : IEditorStacksModel) (group : IEditorGroup)
         (f : FileEditorInput) (old new_ : URI),
    In group (groups stacks) ->
    In (FileInput f) (getEditors group) ->
    (getResource f = old ->
     In (reopenAt stacks group (FileInput f) new_)
        (commands (handleMovedFileInOpenedEditors isLinux stacks
                     (Some old) (Some new_)))) /\
    (forall rest : string,
        fsPath (getResource f) = (fsPath old ++ "/" ++ rest)%string ->
        JS.startsWith rest "/" = false ->
        JS.endsWithChar (fsPath new_) "/" = false ->
        In (reopenAt stacks group (FileInput f)
              (URI_file (fsPath new_ ++ "/" ++ rest)))
           (commands (handleMovedFileInOpenedEditors isLinux stacks
                        (Some old) (Some new_)))).
Proof.
  intros isLinux stacks group f old new_ Hgroup Hf.
  destruct (handleMoved_collects isLinux stacks old new_) as [_ Hin].
  split.
  - intros <-. now apply handleMoved_reopens_moved_file.
  - intros rest Hpath Hrest Hnew.
    apply (Hin group (FileInput f) _ Hgroup Hf).
    rewrite reopenMovedEditor_file, Hpath, isEqualOrParent_nested.
    assert (Hneq : String.eqb (URI_toString old) (URI_toString (getResource f)) = false).
    { apply String.eqb_neq. unfold URI_toString. rewrite Hpath.
      rewrite <- append_assoc. intros Heq. symmetry in Heq.
      now apply append_neq_self in Heq. }
    rewrite Hneq.
    rewrite indexOf_prefix by apply prefix_append.
    rewrite substr_after_prefix, join_separates by assumption.
    now left.
Qed.

(** [/proj/src] is moved to [/proj/lib] while [/proj/src/x.ts] is open: the
    editor is re-opened at [/proj/lib/x.ts]. *)
Lemma moved_editor_reopened_at_new_path_witness :
  In (reopenAt projEditors projGroup (FileInput savedX) (mkURI "/proj/lib/x.ts"))
     (commands (handleMovedFileInOpenedEditors true projEditors
                  (Some (mkURI "/proj/src")) (Some (mkURI "/proj/lib")))).
Proof.
  refine (proj2 (moved_editor_reopened_at_new_path true projEditors projGroup
                   savedX (mkURI "/proj/src") (mkURI "/proj/lib") _ _)
                "x.ts"%string _ _ _);
    try reflexivity; simpl; auto.
Defined.

(** C3.  The rewriting of the path of an editor under a moved folder does
    not always keep the remainder.  On a host that compares paths without
    regard to case, the file [/A/a/x.ts] is found to be under the moved
    folder [/a]; [indexOf] then looks for [/a] in the path as it is written
    and finds it at index 2, so that the remainder is cut after the second
    segment and the editor is re-opened at [/b/x.ts], not at [/b/a/x.ts].
    On any host, an old resource that ends with a separator makes the
    remainder start one character late: [/proj/src/x.ts] under [/proj/src/]
    is re-opened at [/proj/lib/.ts]. *)
Theorem moved_folder_remainder_cut_short :
  paths.isEqualOrParent false "/A/a/x.ts" "/a" = true /\
  JS.indexOf "/A/a/x.ts" "/a" = 2%Z /\
  handleMovedFileInOpenedEditors false mixedCaseEditors
    (Some (mkURI "/a")) (Some (mkURI "/b"))
  = ([reopenAt mixedCaseEditors mixedCaseGroup (FileInput mixedCaseFile)
        (mkURI "/b/x.ts")],
     Returned tt) /\
  handleMovedFileInOpenedEditors true savedXEditors
    (Some (mkURI "/proj/src/")) (Some (mkURI "/proj/lib"))
  = ([reopenAt savedXEditors savedXGroup (FileInput savedX)
        (mkURI "/proj/lib/.ts")],
     Returned tt).
Proof. repeat split. Qed.

(** C4.  The move handling looks at the file inputs of the groups only: the
    sides of a side by side input are not re-opened when their folder is
    moved, although [getOpenedFileInputs] lists them and the delete handling
    of the same local event disposes them. *)
Theorem side_by_side_sides_not_reopened_on_move :
  getOpenedFileInputs sideBySideEditors = [savedX; savedY] /\
  handleMovedFileInOpenedEditors true sideBySideEditors
    (Some (mkURI "/proj/src")) (Some (mkURI "/proj/lib")) = ([], Returned tt) /\
  onLocalFileChange true sideBySideEditors sideBySideEditors
    (moved "/proj/src" "/proj/lib")
  = ([Dispose savedX; Dispose savedY], Returned tt).
Proof. repeat split. Qed.



(** C8.  A local event that reports a move, with the resource after the
    move but without the one before it: the handling ends with a
    [TypeError].  With a file editor open the error is raised by
    [oldResource.fsPath] in the move handling, which was handed [null];
    with no editor open it is raised by [e.getBefore().resource] at the call
    of the delete handling.  A reported delete without the resource before
    it ends the same way. *)
Theorem move_without_before_throws :
  onLocalFileChange true projEditors projEditors movedWithoutBefore
  = ([], Thrown TypeError) /\
  onLocalFileChange true (mkStacks []) (mkStacks []) movedWithoutBefore
  = ([], Thrown TypeError) /\
  onLocalFileChange true projEditors projEditors (mkLocalEvent None None false true)
  = ([], Thrown TypeError).
Proof. repeat split. Qed.

(** The part of the defence that is there: a reported move without the
    resource after it is taken as no move at all. *)
Lemma move_without_after_ignored (isLinux : bool) (stacks stacks' : IEditorStacksModel)
    (before : option IFileStat) :
  onLocalFileChange isLinux stacks stacks' (mkLocalEvent before None true false)
  = ([], Returned tt).
Proof. reflexivity. Qed.

(** C2, as it was claimed, fails.  Both sides of a visible side by side
    editor are reported as updated, the text models of both are in the saved
    state and 3000 ms have passed since the last save attempt of either:
    the model of the master is loaded, the model of the details side is
    not. *)
Lemma details_side_not_reloaded_after_delay :
  In savedY (visibleFileInputs sideBySideEditor) /\
  contains true bothUpdated (getResource savedY) UPDATED = true /\
  modelsXY (getResource savedY) = Some modelY /\
  getState modelY = SAVED /\
  (13000 - getLastSaveAttemptTime modelY = 3000)%Z /\
  (forall pending,
      ~ In (Load modelY pending)
           (commands (handleUpdatesToVisibleEditors true [sideBySideEditor]
                        modelsXY (fun _ => 13000%Z) bothUpdated))) /\
  handleUpdatesToVisibleEditors true [sideBySideEditor]
    modelsXY (fun _ => 13000%Z) bothUpdated
  = ([Load modelX pendingX], Returned tt).
Proof.
  repeat split; try reflexivity.
  - simpl. auto.
  - intros pending [H | []]. discriminate H.
Qed.

(** C2, amended.  A visible editor looks at a file (its input, the master
    of its side by side input, or the details side when the event has no
    update for the master) whose text model is in the saved state, and the
    batch event reports an update of the file.  When 500 ms
    have passed since the last save attempt no load of the model is asked
    for; when 3000 ms have passed, the load is asked for (the delay is
    2000 ms). *)
Theorem reload_waits_for_update_delay :
  forall (isLinux : bool) (editors : list IBaseEditor)
         (models : ITextFileEditorModelManager) (clock : nat -> Z)
         (e : FileChangesEvent) (k : nat) (editor : IBaseEditor)
         (f : FileEditorInput) (textModel : ITextFileEditorModel),
    nth_error editors k = Some editor ->
    input editor = Some (FileInput f) \/
    (exists details, input editor = Some (SideBySideInput (FileInput f) details)) \/
    (exists master,
        input editor = Some (SideBySideInput master (FileInput f)) /\
        getMatchingFileEditorInputFromInput isLinux master e = None) ->
    contains isLinux e (getResource f) UPDATED = true ->
    models (getResource f) = Some textModel ->
    getState textModel = SAVED ->
    FILE_CHANGE_UPDATE_DELAY = 2000%Z /\
    ((forall j, clock j - getLastSaveAttemptTime textModel = 500)%Z ->
     forall pending,
       ~ In (Load textModel pending)
            (commands (handleUpdatesToVisibleEditors isLinux editors models clock e))) /\
    ((clock k - getLastSaveAttemptTime textModel = 3000)%Z ->
     In (Load textModel
           {| pending_codeEditor := getControl editor;
              pending_viewState := saveViewState (getControl editor);
              pending_currentMtime := getLastModifiedTime textModel |})
        (commands (handleUpdatesToVisibleEditors isLinux editors models clock e))).
Proof.
  intros isLinux editors models clock e k editor f textModel
         Hk Hinput Hupdated Hmodel Hsaved.
  split; [reflexivity |]. split.
  - intros Hearly pending H.
    apply in_handleUpdates in H as (j & editor' & _ & H).
    apply updateVisibleEditor_load in H as (_ & Hlate & _).
    rewrite Hearly in Hlate. unfold FILE_CHANGE_UPDATE_DELAY in Hlate. lia.
  - intros Hlate. apply (handleUpdates_collects _ _ _ _ _ k editor _ Hk).
    unfold updateVisibleEditor.
    rewrite (updateCandidate_looked_at _ _ _ _ Hinput Hupdated).
    rewrite Hmodel, Hsaved, Hlate. simpl. now left.
Qed.

(** [x.ts] is visible and reported as updated; its model was saved at time
    10000.  At time 10500 nothing is loaded, at time 13000 the model is.
    When [y.ts] alone is reported as updated, the details side of the side
    by side editor is loaded at time 13000. *)
Lemma reload_waits_for_update_delay_witness :
  In (Load modelY {| pending_codeEditor := mkControl 7 42;
                     pending_viewState := 42%nat;
                     pending_currentMtime := 9500 |})
     (commands (handleUpdatesToVisibleEditors true [sideBySideEditor] modelsXY
                  (fun _ => 13000%Z) onlyYUpdated)) /\
  (forall pending,
      ~ In (Load modelX pending)
           (commands (handleUpdatesToVisibleEditors true
                        [textEditorOf (FileInput savedX)] (modelsOf modelX)
                        (fun _ => 10500%Z) (updatedEvent "/proj/src/x.ts")))) /\
  In (Load modelX {| pending_codeEditor := mkControl 7 42;
                     pending_viewState := 42%nat;
                     pending_currentMtime := 9000 |})
     (commands (handleUpdatesToVisibleEditors true
                  [textEditorOf (FileInput savedX)] (modelsOf modelX)
                  (fun _ => 13000%Z) (updatedEvent "/proj/src/x.ts"))).
Proof.
  split; [| split].
  - apply (proj2 (proj2 (reload_waits_for_update_delay true
             [sideBySideEditor] modelsXY
             (fun _ => 13000%Z) onlyYUpdated
             0 sideBySideEditor savedY modelY
             eq_refl
             (or_intror (or_intror
                (ex_intro _ (FileInput savedX) (conj eq_refl eq_refl))))
             eq_refl eq_refl eq_refl))).
    reflexivity.
  - apply (proj1 (proj2 (reload_waits_for_update_delay true
             [textEditorOf (FileInput savedX)] (modelsOf modelX)
             (fun _ => 10500%Z) (updatedEvent "/proj/src/x.ts")
             0 (textEditorOf (FileInput savedX)) savedX modelX
             eq_refl (or_introl eq_refl) eq_refl eq_refl eq_refl))).
    intros _. reflexivity.
  - apply (proj2 (proj2 (reload_waits_for_update_delay true
             [textEditorOf (FileInput savedX)] (modelsOf modelX)
             (fun _ => 13000%Z) (updatedEvent "/proj/src/x.ts")
             0 (textEditorOf (FileInput savedX)) savedX modelX
             eq_refl (or_introl eq_refl) eq_refl eq_refl eq_refl))).
    reflexivity.
Defined.



(** C6, as it was claimed, fails.  Both sides of a visible side by side
    editor are reported as updated: the update handling takes the master and
    never looks at the details side, although the event has an update for
    its resource. *)
Lemma details_side_with_update_not_candidate :
  In savedY (visibleFileInputs sideBySideEditor) /\
  ~ (updateCandidate true bothUpdated sideBySideEditor = Some savedY <->
     contains true bothUpdated (getResource savedY) UPDATED
     || contains true bothUpdated (getResource savedY) ADDED = true).
Proof.
  split; [simpl; auto |].
  intros [_ H]. specialize (H eq_refl). discriminate H.
Qed.

(** C6, amended.  Of a visible editor the update handling takes at most one
    file input as its candidate, and only one that the editor shows and for
    whose resource the event has an update or an addition.  A file input
    that is the input of the editor is the candidate exactly when the event
    has an update or an addition for it.  Of a side by side input the
    master is the candidate when the event has an update for it, and
    otherwise the details side when the event has an update for that. *)
Theorem update_candidate_of_visible_editor :
  forall (isLinux : bool) (e : FileChangesEvent) (editor : IBaseEditor),
    (forall f,
        updateCandidate isLinux e editor = Some f ->
        In f (visibleFileInputs editor) /\
        contains isLinux e (getResource f) UPDATED
        || contains isLinux e (getResource f) ADDED = true) /\
    (forall f,
        input editor = Some (FileInput f) ->
        (updateCandidate isLinux e editor = Some f <->
         contains isLinux e (getResource f) UPDATED
         || contains isLinux e (getResource f) ADDED = true)) /\
    (forall m details,
        input editor = Some (SideBySideInput (FileInput m) details) ->
        contains isLinux e (getResource m) UPDATED = true ->
        updateCandidate isLinux e editor = Some m) /\
    (forall master d,
        input editor = Some (SideBySideInput master (FileInput d)) ->
        getMatchingFileEditorInputFromInput isLinux master e = None ->
        contains isLinux e (getResource d) UPDATED = true ->
        updateCandidate isLinux e editor = Some d).
Proof.
  intros isLinux e editor. repeat split.
  - unfold updateCandidate, updateInputOf, visibleFileInputs in *.
    destruct (input editor) as [[g | master details | id] |]; try discriminate.
    + destruct (_ || _); [| discriminate]. injection H as ->. now left.
    + unfold getMatchingFileEditorInputFromSideBySide,
        getMatchingFileEditorInputFromInput in H.
      destruct master as [m | |]; destruct details as [d | |];
        repeat match type of H with
               | context [if ?b then _ else _] => destruct b; simpl in H
               end;
        try discriminate; injection H as ->; simpl; auto.
  - unfold updateCandidate in H.
    destruct (updateInputOf isLinux e editor) as [g |]; [| discriminate].
    destruct (_ || _) eqn:Hc; [| discriminate]. injection H as ->. exact Hc.
  - rewrite (updateCandidate_file _ _ _ _ H).
    destruct (_ || _); [reflexivity | discriminate].
  - rewrite (updateCandidate_file _ _ _ _ H). now intros ->.
  - intros m details Hinput Hupdated.
    now apply (updateCandidate_master _ _ _ _ details).
  - intros master d Hinput Hmaster Hupdated.
    unfold updateCandidate, updateInputOf. rewrite Hinput.
    unfold getMatchingFileEditorInputFromSideBySide. rewrite Hmaster.
    unfold getMatchingFileEditorInputFromInput.
    rewrite Hupdated. cbv beta iota. now rewrite Hupdated.
Qed.

(** With both sides updated the candidate is the master, [x.ts]. *)
Lemma update_candidate_of_visible_editor_witness :
  input sideBySideEditor = Some (SideBySideInput (FileInput savedX) (FileInput savedY)) /\
  contains true bothUpdated (getResource savedX) UPDATED = true /\
  updateCandidate true bothUpdated sideBySideEditor = Some savedX.
Proof.
  split; [reflexivity |]. split; [reflexivity |].
  apply (proj1 (proj2 (proj2 (update_candidate_of_visible_editor
                                true bothUpdated sideBySideEditor)))
               savedX (FileInput savedY));
    reflexivity.
Defined.

(** An addition alone makes a file input a candidate when it is the input of
    the editor, but not when it is a side of a side by side input:
    [getMatchingFileEditorInputFromInput] asks for an update only. *)
Lemma added_side_of_side_by_side_skipped :
  updateCandidate true (addedEvent "/proj/src/x.ts") (textEditorOf (FileInput savedX))
  = Some savedX /\
  updateCandidate true (addedEvent "/proj/src/x.ts") sideBySideEditor = None.
Proof. split; reflexivity. Qed.

(** C9.  A load that the update handling asked for has completed.  Its
    callback restores the view state that was saved before the load only if
    the modification time of the model is no longer the one noted before the
    load, the editor is visible, and the editor shows (as its input, or as
    the master of its side by side input) a file input of the resource of
    the model.  When the editor no longer shows the resource (the input was
    disposed and the editor closed, or the editor was pointed at something
    else) the callback does nothing. *)
Theorem view_state_restored_only_if_still_showing :
  forall (isLinux : bool) (editors : list IBaseEditor)
         (models : ITextFileEditorModelManager) (clock : nat -> Z)
         (e : FileChangesEvent)
         (textModel : ITextFileEditorModel) (pending : PendingReload),
    In (Load textModel pending)
       (commands (handleUpdatesToVisibleEditors isLinux editors models clock e)) ->
    forall (editorThen : IBaseEditor) (modelThen : ITextFileEditorModel),
      (forall c,
          In c (commands (loadDone pending editorThen modelThen)) ->
          c = RestoreViewState (pending_codeEditor pending) (pending_viewState pending) /\
          getLastModifiedTime modelThen <> getLastModifiedTime textModel /\
          isVisible editorThen = true /\
          exists f,
            (input editorThen = Some (FileInput f) \/
             exists details,
               input editorThen = Some (SideBySideInput (FileInput f) details)) /\
            getResource f = model_getResource modelThen) /\
      (NoLongerShowing (model_getResource modelThen) editorThen ->
       loadDone pending editorThen modelThen = ([], Returned tt)).
Proof.
  intros isLinux editors models clock e textModel pending Hload editorThen modelThen.
  apply in_handleUpdates in Hload as (k & editor & _ & Hload).
  apply updateVisibleEditor_load in Hload as (_ & _ & ->).
  unfold loadDone. simpl. split.
  - intros c H.
    destruct (negb _) eqn:Hmtime; simpl in H; [| contradiction].
    destruct (isEditorShowingPath _ _) eqn:Hshow; simpl in H; [| contradiction].
    destruct H as [<- | []]. split; [reflexivity |].
    apply negb_true_iff, Z.eqb_neq in Hmtime.
    apply isEditorShowingPath_true in Hshow. tauto.
  - intros Hgone. rewrite (isEditorShowingPath_no_longer _ _ Hgone).
    now rewrite andb_false_r.
Qed.

(** The load of the model of [x.ts] found a newer file.  The view state is
    restored when the editor still shows [x.ts]; it is not when the editor
    was closed in the meantime, or shows [y.ts] by then. *)
Lemma view_state_restored_only_if_still_showing_witness :
  In (Load modelX pendingX)
     (commands (handleUpdatesToVisibleEditors true
                  [textEditorOf (FileInput savedX)] (modelsOf modelX)
                  (fun _ => 13000%Z) (updatedEvent "/proj/src/x.ts"))) /\
  loadDone pendingX (textEditorOf (FileInput savedX)) reloadedModelX
  = ([RestoreViewState (mkControl 7 42) 42%nat], Returned tt) /\
  loadDone pendingX closedEditor reloadedModelX = ([], Returned tt) /\
  loadDone pendingX (textEditorOf (FileInput savedY)) reloadedModelX = ([], Returned tt).
Proof.
  assert (Hload : In (Load modelX pendingX)
     (commands (handleUpdatesToVisibleEditors true
                  [textEditorOf (FileInput savedX)] (modelsOf modelX)
                  (fun _ => 13000%Z) (updatedEvent "/proj/src/x.ts")))).
  { left. reflexivity. }
  split; [exact Hload |]. split; [reflexivity |]. split.
  - apply (proj2 (view_state_restored_only_if_still_showing true _ _ _ _ _ _
                    Hload closedEditor reloadedModelX)).
    now apply Closed.
  - apply (proj2 (view_state_restored_only_if_still_showing true _ _ _ _ _ _
                    Hload (textEditorOf (FileInput savedY)) reloadedModelX)).
    apply (Repointed _ _ savedY); [reflexivity | discriminate].
Defined.

(** C10.  Handling a batch event, and then the same batch event once more
    on the editors that the first handling left open, leaves the same
    editors open as handling it once: whatever editors are visible, whatever
    the text models are and whatever the time is at the second handling. *)
Theorem same_batch_event_twice :
  forall (isLinux : bool) (e : FileChangesEvent) (stacks : IEditorStacksModel)
         (editors editors' : list IBaseEditor)
         (models models' : ITextFileEditorModelManager)
         (clock clock' : nat -> Z),
    afterFileChanges isLinux editors' models' clock' e
      (afterFileChanges isLinux editors models clock e stacks)
    = afterFileChanges isLinux editors models clock e stacks.
Proof.
  intros isLinux e stacks editors editors' models models' clock clock'.
  pose proof (second_pass_disposes_no_more isLinux editors editors'
                models models' clock clock' e stacks) as Hmono.
  unfold afterFileChanges at 1.
  set (log2 := commands (onFileChanges isLinux editors' models' clock'
                 (afterFileChanges isLinux editors models clock e stacks) e)) in *.
  unfold afterFileChanges in *.
  set (log1 := commands (onFileChanges isLinux editors models clock stacks e)) in *.
  unfold closeDisposed. simpl. rewrite map_map. f_equal.
  apply map_ext_in. intros group _. simpl. f_equal.
  apply filter_filter_implied. intros i _ Hopen.
  assert (Hside : forall side,
             sideDisposedIn log1 side = false -> sideDisposedIn log2 side = false).
  { intros [f | |] H; try reflexivity. simpl in *.
    destruct (disposedIn log2 f) eqn:H2; [| reflexivity].
    now rewrite (Hmono f H2) in H. }
  destruct i as [f | master details | id]; simpl in *.
  - apply negb_true_iff. apply negb_true_iff in Hopen.
    exact (Hside (FileInput f) Hopen).
  - apply andb_prop in Hopen as [Hm Hd].
    apply negb_true_iff in Hm, Hd.
    now rewrite (Hside _ Hm), (Hside _ Hd).
  - reflexivity.
Qed.

(** The first handling of the deletion of [x.ts] and [a.ts] closes the
    saved [x.ts] and keeps the unsaved [a.ts]. *)
Lemma deleted_batch_closes_saved_file :
  getOpenedFileInputs
    (afterFileChanges true [] noModels (fun _ => 0%Z) bothDeleted projEditors)
  = [unsavedA].
Proof. reflexivity. Qed.

(* ================================================================== *)
(** * Further properties of the handlers *)
(* ================================================================== *)

(** ** Shared facts *)

Lemma updateCandidate_inv (isLinux : bool) (e : FileChangesEvent)
    (editor : IBaseEditor) (f : FileEditorInput) :
  updateCandidate isLinux e editor = Some f ->
  In f (visibleFileInputs editor) /\
  contains isLinux e (getResource f) UPDATED
  || contains isLinux e (getResource f) ADDED = true.
Proof.
  unfold updateCandidate. intros H.
  destruct (updateInputOf isLinux e editor) as [g |] eqn:Hin; [| discriminate].
  destruct (_ || _) eqn:Hc; [| discriminate]. injection H as ->.
  split; [| exact Hc]. clear Hc.
  unfold updateInputOf, visibleFileInputs in *.
  destruct (input editor) as [[g | master details | id] |]; try discriminate.
  - injection Hin as ->. now left.
  - unfold getMatchingFileEditorInputFromSideBySide,
      getMatchingFileEditorInputFromInput in Hin.
    destruct master as [m | |]; destruct details as [d | |];
      repeat match type of Hin with
             | context [if ?b then _ else _] => destruct b; simpl in Hin
             end;
      try discriminate; injection Hin as ->; simpl; auto.
Qed.

(** What one visible editor can make the update handling ask for. *)
Lemma updateVisibleEditor_inv (isLinux : bool)
    (models : ITextFileEditorModelManager) (e : FileChangesEvent)
    (now : Z) (editor : IBaseEditor) (c : Command) :
  In c (commands (updateVisibleEditor isLinux models e now editor)) ->
  exists f,
    updateCandidate isLinux e editor = Some f /\
    ((exists textModel,
         models (getResource f) = Some textModel /\
         getState textModel = SAVED /\
         (now - getLastSaveAttemptTime textModel > 2000)%Z /\
         c = Load textModel
               {| pending_codeEditor := getControl editor;
                  pending_viewState := saveViewState (getControl editor);
                  pending_currentMtime := getLastModifiedTime textModel |}) \/
     (models (getResource f) = None /\
      getId editor = BINARY_FILE_EDITOR_ID /\
      c = ReopenInput (input editor) true true (position editor))).
Proof.
  unfold updateVisibleEditor.
  destruct (updateCandidate isLinux e editor) as [f |]; simpl; [| tauto].
  intros H. exists f. split; [reflexivity |].
  destruct (models (getResource f)) as [m |].
  - destruct (ModelState_eqb _ _) eqn:Hst; simpl in H; [| tauto].
    destruct (_ >? _)%Z eqn:Hlate; simpl in H; [| tauto].
    destruct H as [<- | []]. left. exists m.
    apply ModelState_eqb_SAVED in Hst. apply Z.gtb_gt in Hlate.
    unfold FILE_CHANGE_UPDATE_DELAY in Hlate. auto.
  - destruct (String.eqb _ _) eqn:Hid; simpl in H; [| tauto].
    destruct H as [<- | []]. right. apply String.eqb_eq in Hid. auto.
Qed.

Lemma updateVisibleEditor_length (isLinux : bool)
    (models : ITextFileEditorModelManager) (e : FileChangesEvent)
    (now : Z) (editor : IBaseEditor) :
  (length (commands (updateVisibleEditor isLinux models e now editor)) <= 1)%nat.
Proof.
  unfold updateVisibleEditor.
  destruct (updateCandidate isLinux e editor) as [f |]; simpl; [| lia].
  destruct (models (getResource f)) as [m |].
  - destruct (ModelState_eqb _ _); simpl; [| lia].
    destruct (_ >? _)%Z; simpl; lia.
  - destruct (String.eqb _ _); simpl; lia.
Qed.

Lemma forEachFrom_length {A} (l : list A) (f : nat -> A -> M unit) (k : nat) :
  (forall j x, completion (f j x) = Returned tt) ->
  (forall j x, (length (commands (f j x)) <= 1)%nat) ->
  (length (commands (forEachFrom k l f)) <= length l)%nat.
Proof.
  intros Hret Hlen. revert k.
  induction l as [| x rest IH]; simpl; intros k; [lia |].
  rewrite (commands_bind_returned _ _ tt) by apply Hret.
  rewrite length_app. specialize (Hlen k x). specialize (IH (S k)). lia.
Qed.

(** The handling of a local event whose resource before the change is
    there, spelled out: the re-opens of the move handling, then the
    disposals of the delete handling. *)
Lemma onLocalFileChange_before_present (isLinux : bool)
    (stacks stacks' : IEditorStacksModel)
    (before : IFileStat) (after : option IFileStat) (mv del : bool) :
  onLocalFileChange isLinux stacks stacks' (mkLocalEvent (Some before) after mv del) =
  ((match (if mv then option_map stat_resource after else None) with
    | Some new_ =>
        commands (handleMovedFileInOpenedEditors isLinux stacks
                    (Some (stat_resource before)) (Some new_))
    | None => []
    end) ++
   (if del || match (if mv then option_map stat_resource after else None) with
              | Some _ => true
              | None => false
              end
    then commands (handleDeletes isLinux stacks' (inl (stat_resource before))
                     (if mv then option_map stat_resource after else None))
    else []),
   Returned tt).
Proof.
  unfold onLocalFileChange. simpl.
  destruct mv, after as [after |]; simpl.
  - destruct (handleMoved_collects isLinux stacks
                (stat_resource before) (stat_resource after)) as [Hret _].
    destruct (handleMovedFileInOpenedEditors _ _ _ _) as [l r].
    simpl in Hret. subst r. simpl. rewrite orb_true_r.
    now rewrite handleDeletes_filter.
  - rewrite orb_false_r. destruct del; simpl; [| reflexivity].
    now rewrite handleDeletes_filter.
  - rewrite orb_false_r. destruct del; simpl; [| reflexivity].
    now rewrite handleDeletes_filter.
  - rewrite orb_false_r. destruct del; simpl; [| reflexivity].
    now rewrite handleDeletes_filter.
Qed.

Lemma shouldDispose_iff (isLinux : bool) (arg1 : URI + FileChangesEvent)
    (movedTo : option URI) (i : FileEditorInput) :
  shouldDispose isLinux arg1 movedTo i = true <->
  isDirty i = false /\
  (forall target, movedTo = Some target ->
                  fsPath target <> fsPath (getResource i)) /\
  match arg1 with
  | inr e => contains isLinux e (getResource i) DELETED = true
  | inl uri =>
      paths.isEqualOrParent isLinux
        (URI_toString (getResource i)) (URI_toString uri) = true
  end.
Proof.
  unfold shouldDispose. rewrite !andb_true_iff, !negb_true_iff.
  assert (Hguard :
    match movedTo with
    | Some target => String.eqb (fsPath target) (fsPath (getResource i))
    | None => false
    end = false <->
    forall target, movedTo = Some target ->
                   fsPath target <> fsPath (getResource i)).
  { destruct movedTo as [target |].
    - rewrite String.eqb_neq. split.
      + intros H t Ht. now injection Ht as <-.
      + intros H. now apply H.
    - split; [discriminate | reflexivity]. }
  rewrite Hguard. destruct arg1; tauto.
Qed.

(** ** The opened file inputs *)

(** X1.  [getOpenedFileInputs] lists a file input exactly when it is an
    editor of a group, or the master or the details side of a side by side
    editor of a group.  Side by side inputs are unwrapped one level only,
    and other inputs are not listed. *)
Theorem opened_file_inputs_are_editors_or_sides :
  forall (stacks : IEditorStacksModel) (f : FileEditorInput),
    In f (getOpenedFileInputs stacks) <->
    exists group i,
      In group (groups stacks) /\ In i (getEditors group) /\
      (i = FileInput f \/
       (exists details, i = SideBySideInput (FileInput f) details) \/
       (exists master, i = SideBySideInput master (FileInput f))).
Proof.
  intros stacks f. rewrite in_getOpenedFileInputs. split.
  - intros (group & i & Hg & Hi & [-> | (m & d & -> & [-> | ->])]);
      exists group; eexists; repeat split; eauto.
  - intros (group & i & Hg & Hi & [-> | [(d & ->) | (m & ->)]]);
      exists group; eexists; repeat split; eauto 8.
Qed.

(** ** Delete handling *)

(** X2.  The delete handling always returns, and what it asks for is
    exactly the disposal of the opened file inputs that have no unsaved
    changes, are not at the place the file was moved to, and are matched:
    reported as deleted by the batch event, or equal to or under the
    deleted resource of the local event. *)
Theorem handleDeletes_disposes_exactly :
  forall (isLinux : bool) (stacks : IEditorStacksModel)
         (arg1 : URI + FileChangesEvent) (movedTo : option URI),
    completion (handleDeletes isLinux stacks arg1 movedTo) = Returned tt /\
    forall c,
      In c (commands (handleDeletes isLinux stacks arg1 movedTo)) <->
      exists i,
        c = Dispose i /\
        In i (getOpenedFileInputs stacks) /\
        isDirty i = false /\
        (forall target, movedTo = Some target ->
                        fsPath target <> fsPath (getResource i)) /\
        match arg1 with
        | inr e => contains isLinux e (getResource i) DELETED = true
        | inl uri =>
            paths.isEqualOrParent isLinux
              (URI_toString (getResource i)) (URI_toString uri) = true
        end.
Proof.
  intros isLinux stacks arg1 movedTo. split.
  - now rewrite handleDeletes_filter.
  - intros c. rewrite in_handleDeletes. split.
    + intros (i & -> & Hin & H). apply shouldDispose_iff in H.
      exists i. tauto.
    + intros (i & -> & Hin & H). exists i. repeat split; try assumption.
      now apply shouldDispose_iff.
Qed.

(** X3.  The handling of a batch event never raises an error, and it
    disposes exactly the opened file inputs without unsaved changes that the
    event reports as deleted; an event without a deletion disposes
    nothing. *)
Theorem batch_event_disposes_deleted_inputs :
  forall (isLinux : bool) (editors : list IBaseEditor)
         (models : ITextFileEditorModelManager) (clock : nat -> Z)
         (stacks : IEditorStacksModel) (e : FileChangesEvent),
    completion (onFileChanges isLinux editors models clock stacks e) = Returned tt /\
    forall i,
      In (Dispose i) (commands (onFileChanges isLinux editors models clock stacks e)) <->
      gotDeleted e = true /\
      In i (getOpenedFileInputs stacks) /\
      isDirty i = false /\
      contains isLinux e (getResource i) DELETED = true.
Proof.
  intros isLinux editors models clock stacks e. split.
  - unfold onFileChanges.
    rewrite (completion_bind_returned _ _ tt) by apply handleUpdates_returns.
    destruct (gotDeleted e); [| reflexivity]. now rewrite handleDeletes_filter.
  - intros i. rewrite onFileChanges_disposes, shouldDispose_iff.
    split; [tauto |]. intros (Hg & Hin & Hd & Hc).
    repeat split; try assumption. discriminate.
Qed.

(** ** Update handling *)

(** X4.  The update handling never raises an error and asks for at most
    one thing per visible editor, which is the load of a text model or the
    forced re-open of the input of an editor: it never disposes an input and
    never opens another resource. *)
Theorem update_handling_one_request_per_editor :
  forall (isLinux : bool) (editors : list IBaseEditor)
         (models : ITextFileEditorModelManager) (clock : nat -> Z)
         (e : FileChangesEvent),
    completion (handleUpdatesToVisibleEditors isLinux editors models clock e)
    = Returned tt /\
    (length (commands (handleUpdatesToVisibleEditors isLinux editors models clock e))
     <= length editors)%nat /\
    forall c,
      In c (commands (handleUpdatesToVisibleEditors isLinux editors models clock e)) ->
      (exists textModel pending, c = Load textModel pending) \/
      (exists i pos, c = ReopenInput i true true pos).
Proof.
  intros isLinux editors models clock e. split; [apply handleUpdates_returns |].
  split.
  - unfold handleUpdatesToVisibleEditors. apply forEachFrom_length.
    + intros. apply updateVisibleEditor_returns.
    + intros. apply updateVisibleEditor_length.
  - intros c H. apply in_handleUpdates in H as (k & editor & _ & H).
    apply updateVisibleEditor_inv in H
      as (f & _ & [(m & _ & _ & _ & ->) | (_ & _ & ->)]); eauto.
Qed.

(** X5.  Every load that the update handling asks for is the load of the
    text model of a file input that a visible editor shows, for whose
    resource the event has an update or an addition; the model is in the
    saved state, and more than 2000 ms have passed since its last save
    attempt when the editor is looked at.  The load remembers the view state
    of that editor and the modification time of the model. *)
Theorem load_only_of_saved_model_after_delay :
  forall (isLinux : bool) (editors : list IBaseEditor)
         (models : ITextFileEditorModelManager) (clock : nat -> Z)
         (e : FileChangesEvent)
         (textModel : ITextFileEditorModel) (pending : PendingReload),
    In (Load textModel pending)
       (commands (handleUpdatesToVisibleEditors isLinux editors models clock e)) ->
    exists k editor f,
      nth_error editors k = Some editor /\
      In f (visibleFileInputs editor) /\
      contains isLinux e (getResource f) UPDATED
      || contains isLinux e (getResource f) ADDED = true /\
      models (getResource f) = Some textModel /\
      getState textModel = SAVED /\
      (clock k - getLastSaveAttemptTime textModel > 2000)%Z /\
      pending = {| pending_codeEditor := getControl editor;
                   pending_viewState := saveViewState (getControl editor);
                   pending_currentMtime := getLastModifiedTime textModel |}.
Proof.
  intros isLinux editors models clock e textModel pending H.
  apply in_handleUpdates in H as (k & editor & Hk & H).
  apply updateVisibleEditor_inv in H
    as (f & Hf & [(m & Hm & Hs & Hl & Heq) | (_ & _ & Heq)]); [| discriminate].
  injection Heq as <- ->.
  apply updateCandidate_inv in Hf as [Hshown Hchanged].
  exists k, editor, f. auto 10.
Qed.

Lemma load_only_of_saved_model_after_delay_witness :
  exists k editor f,
    nth_error [textEditorOf (FileInput savedX)] k = Some editor /\
    In f (visibleFileInputs editor) /\
    contains true (updatedEvent "/proj/src/x.ts") (getResource f) UPDATED
    || contains true (updatedEvent "/proj/src/x.ts") (getResource f) ADDED = true /\
    modelsOf modelX (getResource f) = Some modelX /\
    getState modelX = SAVED /\
    (13000 - getLastSaveAttemptTime modelX > 2000)%Z /\
    pendingX = {| pending_codeEditor := getControl editor;
                  pending_viewState := saveViewState (getControl editor);
                  pending_currentMtime := getLastModifiedTime modelX |}.
Proof.
  apply (load_only_of_saved_model_after_delay true
           [textEditorOf (FileInput savedX)] (modelsOf modelX)
           (fun _ => 13000%Z) (updatedEvent "/proj/src/x.ts") modelX pendingX).
  left. reflexivity.
Defined.

(** X6.  The delay is a strict bound: a model whose last save attempt is
    2000 ms or less ago at every reading of the clock is never loaded,
    whatever the event and the visible editors are. *)
Theorem no_load_within_delay :
  forall (isLinux : bool) (editors : list IBaseEditor)
         (models : ITextFileEditorModelManager) (clock : nat -> Z)
         (e : FileChangesEvent) (textModel : ITextFileEditorModel),
    (forall k, clock k - getLastSaveAttemptTime textModel <= 2000)%Z ->
    forall pending,
      ~ In (Load textModel pending)
           (commands (handleUpdatesToVisibleEditors isLinux editors models clock e)).
Proof.
  intros isLinux editors models clock e textModel Hearly pending H.
  apply in_handleUpdates in H as (k & editor & _ & H).
  apply updateVisibleEditor_load in H as (_ & Hlate & _).
  specialize (Hearly k). unfold FILE_CHANGE_UPDATE_DELAY in Hlate. lia.
Qed.

(** Exactly 2000 ms after the save attempt at time 10000 nothing is loaded;
    one millisecond later the model is. *)
Lemma no_load_within_delay_witness :
  (forall pending,
      ~ In (Load modelX pending)
           (commands (handleUpdatesToVisibleEditors true
                        [textEditorOf (FileInput savedX)] (modelsOf modelX)
                        (fun _ => 12000%Z) (updatedEvent "/proj/src/x.ts")))) /\
  In (Load modelX pendingX)
     (commands (handleUpdatesToVisibleEditors true
                  [textEditorOf (FileInput savedX)] (modelsOf modelX)
                  (fun _ => 12001%Z) (updatedEvent "/proj/src/x.ts"))).
Proof.
  split.
  - apply (no_load_within_delay true [textEditorOf (FileInput savedX)]
             (modelsOf modelX) (fun _ => 12000%Z)
             (updatedEvent "/proj/src/x.ts") modelX).
    intros _. simpl. lia.
  - left. reflexivity.
Defined.

(** X7.  A visible editor whose input is a file input is re-loaded when the
    event has an update or an addition for its resource (an addition alone
    is enough), its text model is in the saved state and more than 2000 ms
    have passed since the last save attempt. *)
Theorem changed_file_editor_reloaded_after_delay :
  forall (isLinux : bool) (editors : list IBaseEditor)
         (models : ITextFileEditorModelManager) (clock : nat -> Z)
         (e : FileChangesEvent) (k : nat) (editor : IBaseEditor)
         (f : FileEditorInput) (textModel : ITextFileEditorModel),
    nth_error editors k = Some editor ->
    input editor = Some (FileInput f) ->
    contains isLinux e (getResource f) UPDATED
    || contains isLinux e (getResource f) ADDED = true ->
    models (getResource f) = Some textModel ->
    getState textModel = SAVED ->
    (clock k - getLastSaveAttemptTime textModel > 2000)%Z ->
    In (Load textModel
          {| pending_codeEditor := getControl editor;
             pending_viewState := saveViewState (getControl editor);
             pending_currentMtime := getLastModifiedTime textModel |})
       (commands (handleUpdatesToVisibleEditors isLinux editors models clock e)).
Proof.
  intros isLinux editors models clock e k editor f textModel
         Hk Hinput Hchanged Hmodel Hsaved Hlate.
  apply (handleUpdates_collects _ _ _ _ _ k editor _ Hk).
  assert (Hcandidate : updateCandidate isLinux e editor = Some f).
  { now rewrite (updateCandidate_file _ _ _ _ Hinput), Hchanged. }
  rewrite (updateVisibleEditor_saved_model _ _ _ _ _ _ _ Hcandidate Hmodel Hsaved).
  apply Z.gtb_gt in Hlate. rewrite Hlate. now left.
Qed.

(** [x.ts] is reported as added only. *)
Lemma changed_file_editor_reloaded_after_delay_witness :
  In (Load modelX pendingX)
     (commands (handleUpdatesToVisibleEditors true
                  [textEditorOf (FileInput savedX)] (modelsOf modelX)
                  (fun _ => 12001%Z) (addedEvent "/proj/src/x.ts"))).
Proof.
  apply (changed_file_editor_reloaded_after_delay true
           [textEditorOf (FileInput savedX)] (modelsOf modelX)
           (fun _ => 12001%Z) (addedEvent "/proj/src/x.ts")
           0 (textEditorOf (FileInput savedX)) savedX modelX);
    reflexivity.
Defined.

(** X8.  A forced re-open is asked for only of the input of a visible
    binary file editor, at the position of that editor, and only when the
    file input it stands for has an update or an addition in the event and
    no text model: an editor of another kind without a text model is left
    alone. *)
Theorem forced_reopen_only_of_binary_editor :
  forall (isLinux : bool) (editors : list IBaseEditor)
         (models : ITextFileEditorModelManager) (clock : nat -> Z)
         (e : FileChangesEvent)
         (i : option EditorInput) (forceOpen preserveFocus : bool) (pos : Z),
    In (ReopenInput i forceOpen preserveFocus pos)
       (commands (handleUpdatesToVisibleEditors isLinux editors models clock e)) ->
    forceOpen = true /\ preserveFocus = true /\
    exists k editor f,
      nth_error editors k = Some editor /\
      getId editor = BINARY_FILE_EDITOR_ID /\
      i = input editor /\ pos = position editor /\
      In f (visibleFileInputs editor) /\
      contains isLinux e (getResource f) UPDATED
      || contains isLinux e (getResource f) ADDED = true /\
      models (getResource f) = None.
Proof.
  intros isLinux editors models clock e i forceOpen preserveFocus pos H.
  apply in_handleUpdates in H as (k & editor & Hk & H).
  apply updateVisibleEditor_inv in H
    as (f & Hf & [(m & _ & _ & _ & Heq) | (Hm & Hid & Heq)]); [discriminate |].
  injection Heq as -> -> -> ->.
  apply updateCandidate_inv in Hf as [Hshown Hchanged].
  repeat split. exists k, editor, f. auto 10.
Qed.

Lemma forced_reopen_only_of_binary_editor_witness :
  true = true /\ true = true /\
  exists k editor f,
    nth_error [textEditorOf (FileInput savedX); binaryEditorOf (FileInput image)] k
    = Some editor /\
    getId editor = BINARY_FILE_EDITOR_ID /\
    Some (FileInput image) = input editor /\ 0%Z = position editor /\
    In f (visibleFileInputs editor) /\
    contains true (updatedEvent "/img/a.png") (getResource f) UPDATED
    || contains true (updatedEvent "/img/a.png") (getResource f) ADDED = true /\
    modelsOf modelX (getResource f) = None.
Proof.
  apply (forced_reopen_only_of_binary_editor true
           [textEditorOf (FileInput savedX); binaryEditorOf (FileInput image)]
           (modelsOf modelX) (fun _ => 10500%Z) (updatedEvent "/img/a.png")).
  left. reflexivity.
Defined.

(** X9.  An event that has neither an update nor an addition for any
    resource (deletions only, say) makes the update handling ask for
    nothing. *)
Theorem no_update_no_request :
  forall (isLinux : bool) (editors : list IBaseEditor)
         (models : ITextFileEditorModelManager) (clock : nat -> Z)
         (e : FileChangesEvent),
    (forall resource,
        contains isLinux e resource UPDATED = false /\
        contains isLinux e resource ADDED = false) ->
    handleUpdatesToVisibleEditors isLinux editors models clock e = ([], Returned tt).
Proof.
  intros isLinux editors models clock e Hnone.
  pose proof (handleUpdates_returns isLinux editors models clock e) as Hret.
  destruct (handleUpdatesToVisibleEditors isLinux editors models clock e)
    as [l r] eqn:Hrun.
  simpl in Hret. subst r. f_equal.
  destruct l as [| c l]; [reflexivity | exfalso].
  assert (Hc : In c (commands (handleUpdatesToVisibleEditors isLinux editors
                                 models clock e)))
    by (rewrite Hrun; now left).
  apply in_handleUpdates in Hc as (k & editor & _ & Hc).
  apply updateVisibleEditor_inv in Hc as (f & Hf & _).
  apply updateCandidate_inv in Hf as [_ Hchanged].
  destruct (Hnone (getResource f)) as [Hu Ha].
  rewrite Hu, Ha in Hchanged. discriminate.
Qed.

Lemma no_update_no_request_witness :
  handleUpdatesToVisibleEditors true
    [textEditorOf (FileInput savedX); binaryEditorOf (FileInput image)]
    (modelsOf modelX) (fun _ => 13000%Z) bothDeleted
  = ([], Returned tt).
Proof.
  apply (no_update_no_request true).
  intros resource. split; reflexivity.
Defined.

(** ** The callback of a load *)

Lemma isEditorShowingPath_shown (editor : IBaseEditor) (resource : URI) :
  (isVisible editor = true /\
   exists f,
     (input editor = Some (FileInput f) \/
      exists details, input editor = Some (SideBySideInput (FileInput f) details)) /\
     getResource f = resource) ->
  isEditorShowingPath editor resource = true.
Proof.
  intros (Hvisible & f & Hinput & <-).
  unfold isEditorShowingPath. rewrite Hvisible. cbn [negb].
  destruct Hinput as [-> | (details & ->)]; cbv beta iota zeta;
    now apply toString_eqb_eq.
Qed.

(** X10.  [isEditorShowingPath] answers yes exactly for a visible editor
    whose input is a file input of the resource, or a side by side input
    whose master is one.  The details side of a side by side input does not
    count, and neither does an editor that is not visible or has no
    input. *)
Theorem editor_shows_path_iff :
  forall (editor : IBaseEditor) (resource : URI),
    isEditorShowingPath editor resource = true <->
    isVisible editor = true /\
    exists f,
      (input editor = Some (FileInput f) \/
       exists details, input editor = Some (SideBySideInput (FileInput f) details)) /\
      getResource f = resource.
Proof.
  intros editor resource.
  split; [apply isEditorShowingPath_true | apply isEditorShowingPath_shown].
Qed.

(** X11.  When a load has completed, its callback restores the view state
    that was saved before the load, in the code editor it was saved from, if
    the modification time of the model has changed and the editor is visible
    and shows a file input of the resource of the model as its input or as
    the master of its side by side input.  If the modification time is the
    one noted before the load, nothing is restored, whatever the editor
    shows. *)
Theorem load_callback_restores_saved_view_state :
  forall (pending : PendingReload) (editor : IBaseEditor)
         (textModel : ITextFileEditorModel),
    (forall f,
        getLastModifiedTime textModel <> pending_currentMtime pending ->
        isVisible editor = true ->
        input editor = Some (FileInput f) \/
        (exists details, input editor = Some (SideBySideInput (FileInput f) details)) ->
        getResource f = model_getResource textModel ->
        loadDone pending editor textModel
        = ([RestoreViewState (pending_codeEditor pending) (pending_viewState pending)],
           Returned tt)) /\
    (getLastModifiedTime textModel = pending_currentMtime pending ->
     loadDone pending editor textModel = ([], Returned tt)).
Proof.
  intros pending editor textModel. unfold loadDone. split.
  - intros f Hmtime Hvisible Hinput Hres. apply Z.eqb_neq in Hmtime.
    assert (Hshow : isEditorShowingPath editor (model_getResource textModel) = true).
    { apply isEditorShowingPath_shown. eauto. }
    now rewrite Hmtime, Hshow.
  - intros Hmtime. apply Z.eqb_eq in Hmtime. now rewrite Hmtime.
Qed.

Lemma load_callback_restores_saved_view_state_witness :
  loadDone pendingX (textEditorOf (FileInput savedX)) reloadedModelX
  = ([RestoreViewState (mkControl 7 42) 42%nat], Returned tt) /\
  loadDone pendingX (textEditorOf (FileInput savedX)) modelX = ([], Returned tt).
Proof.
  split.
  - apply (proj1 (load_callback_restores_saved_view_state pendingX
                    (textEditorOf (FileInput savedX)) reloadedModelX) savedX);
      [discriminate | reflexivity | left; reflexivity | reflexivity].
  - apply (proj2 (load_callback_restores_saved_view_state pendingX
                    (textEditorOf (FileInput savedX)) modelX)).
    reflexivity.
Defined.

(** ** Local events *)

Lemma handleMoved_without_old (isLinux : bool) (stacks : IEditorStacksModel)
    (newResource : option URI) :
  handleMovedFileInOpenedEditors isLinux stacks None newResource =
  ([], if existsb (fun group =>
                     existsb (fun i => match i with
                                       | FileInput _ => true
                                       | _ => false
                                       end) (getEditors group))
                  (groups stacks)
       then Thrown TypeError else Returned tt).
Proof.
  unfold handleMovedFileInOpenedEditors.
  assert (Hinner : forall group editors,
    forEach editors (reopenMovedEditor isLinux stacks None newResource group) =
    ([], if existsb (fun i => match i with
                              | FileInput _ => true
                              | _ => false
                              end) editors
         then Thrown TypeError else Returned tt)).
  { intros group editors.
    induction editors as [| i rest IH]; simpl; [reflexivity |].
    rewrite IH. destruct i as [f | master details | id]; simpl; try reflexivity;
      now destruct (existsb _ rest). }
  induction (groups stacks) as [| group rest IH]; simpl; [reflexivity |].
  rewrite Hinner, IH.
  destruct (existsb _ (getEditors group)); simpl; [reflexivity |].
  now destruct (existsb _ rest).
Qed.

(** X12.  The handling of a local event raises a [TypeError] exactly when
    the resource before the change is missing although the event reports a
    delete, or a move together with the resource after it; in every other
    case it returns. *)
Theorem local_event_raises_iff_before_missing :
  forall (isLinux : bool) (stacks stacks' : IEditorStacksModel)
         (e : LocalFileChangeEvent),
    (completion (onLocalFileChange isLinux stacks stacks' e) = Thrown TypeError <->
     getBefore e = None /\
     (local_gotDeleted e = true \/
      (local_gotMoved e = true /\ getAfter e <> None))) /\
    (completion (onLocalFileChange isLinux stacks stacks' e) = Returned tt \/
     completion (onLocalFileChange isLinux stacks stacks' e) = Thrown TypeError).
Proof.
  intros isLinux stacks stacks' [[before |] after mv del].
  - rewrite onLocalFileChange_before_present. simpl. split; [| now left].
    split; [discriminate | intros [H _]; discriminate].
  - unfold onLocalFileChange. simpl.
    destruct mv, after as [after |]; simpl.
    + rewrite handleMoved_without_old.
      destruct (existsb _ _); simpl; rewrite ?orb_true_r; simpl;
        (split; [| now right]); split; auto;
        intros _; split; auto; right; split; auto; discriminate.
    + rewrite orb_false_r. destruct del; simpl.
      * split; [| now right]. split; auto.
      * split; [| now left]. split; [discriminate |].
        intros [_ [H | [_ H]]]; [discriminate | now elim H].
    + rewrite orb_false_r. destruct del; simpl.
      * split; [| now right]. split; auto.
      * split; [| now left]. split; [discriminate |].
        intros [_ [H | [H _]]]; discriminate.
    + rewrite orb_false_r. destruct del; simpl.
      * split; [| now right]. split; auto.
      * split; [| now left]. split; [discriminate |].
        intros [_ [H | [H _]]]; discriminate.
Qed.

(** X13.  A local event that reports no delete, and either no move or a
    move without the resource after it, does nothing at all: no editor is
    re-opened, no input is disposed and no error is raised, whether the
    resource before the change is there or not. *)
Theorem local_event_without_delete_or_move_ignored :
  forall (isLinux : bool) (stacks stacks' : IEditorStacksModel)
         (e : LocalFileChangeEvent),
    local_gotDeleted e = false ->
    local_gotMoved e = false \/ getAfter e = None ->
    onLocalFileChange isLinux stacks stacks' e = ([], Returned tt).
Proof.
  intros isLinux stacks stacks' [before after mv del]. simpl.
  intros -> [-> | ->]; unfold onLocalFileChange; simpl;
    [reflexivity | now destruct mv].
Qed.

(** A file was saved: the event has both resources, and reports neither a
    move nor a delete. *)
Lemma local_event_without_delete_or_move_ignored_witness :
  onLocalFileChange true projEditors projEditors
    (mkLocalEvent (Some (mkStat (mkURI "/proj/src/x.ts")))
                  (Some (mkStat (mkURI "/proj/src/x.ts"))) false false)
  = ([], Returned tt).
Proof.
  apply (local_event_without_delete_or_move_ignored true projEditors projEditors);
    [reflexivity | left; reflexivity].
Defined.

(** X14.  A local event that has the resource before the change is handled
    without an error, and everything the move handling asks to re-open is
    asked for before the delete handling disposes anything; the disposed
    inputs are among the opened file inputs as they are by then. *)
Theorem local_event_reopens_before_it_disposes :
  forall (isLinux : bool) (stacks stacks' : IEditorStacksModel)
         (e : LocalFileChangeEvent) (before : IFileStat),
    getBefore e = Some before ->
    completion (onLocalFileChange isLinux stacks stacks' e) = Returned tt /\
    exists opens disposed,
      commands (onLocalFileChange isLinux stacks stacks' e)
      = opens ++ map Dispose disposed /\
      (forall c, In c opens -> exists r opts p, c = OpenResource r opts p) /\
      (forall i, In i disposed -> In i (getOpenedFileInputs stacks')).
Proof.
  intros isLinux stacks stacks' [b after mv del] before. simpl. intros ->.
  rewrite onLocalFileChange_before_present. split; [reflexivity |].
  cbn [commands fst]. eexists. 
  exists (if del || match (if mv then option_map stat_resource after else None) with
                    | Some _ => true
                    | None => false
                    end
          then filter (shouldDispose isLinux (inl (stat_resource before))
                         (if mv then option_map stat_resource after else None))
                      (getOpenedFileInputs stacks')
          else []).
  split; [| split].
  - f_equal. destruct (del || _); [| reflexivity].
    now rewrite handleDeletes_filter.
  - intros c Hc.
    destruct (if mv then option_map stat_resource after else None);
      [| contradiction].
    now apply handleMoved_only_opens in Hc.
  - intros i Hi. destruct (del || _); [| contradiction].
    now apply filter_In in Hi.
Qed.

Lemma local_event_reopens_before_it_disposes_witness :
  completion (onLocalFileChange true projEditors projEditors
                (moved "/proj/src" "/proj/lib")) = Returned tt /\
  exists opens disposed,
    commands (onLocalFileChange true projEditors projEditors
                (moved "/proj/src" "/proj/lib"))
    = opens ++ map Dispose disposed /\
    (forall c, In c opens -> exists r opts p, c = OpenResource r opts p) /\
    (forall i, In i disposed -> In i (getOpenedFileInputs projEditors)).
Proof.
  apply (local_event_reopens_before_it_disposes true projEditors projEditors
           (moved "/proj/src" "/proj/lib") (mkStat (mkURI "/proj/src"))).
  reflexivity.
Defined.

(** ** Move handling *)

(** X15.  With both resources at hand the move handling returns, and it
    only asks to re-open file inputs that are themselves editors of a group
    and that the paths API finds equal to or under the old resource, each
    at the position of its group and with the pinned state, index and
    activity the group answers for it.  Every other editor is left
    alone. *)
Theorem move_handling_reopens_only_under_old :
  forall (isLinux : bool) (stacks : IEditorStacksModel) (old new_ : URI),
    completion (handleMovedFileInOpenedEditors isLinux stacks (Some old) (Some new_))
    = Returned tt /\
    forall c,
      In c (commands (handleMovedFileInOpenedEditors isLinux stacks
                        (Some old) (Some new_))) ->
      exists group f resource,
        In group (groups stacks) /\
        In (FileInput f) (getEditors group) /\
        paths.isEqualOrParent isLinux (fsPath (getResource f)) (fsPath old) = true /\
        c = reopenAt stacks group (FileInput f) resource.
Proof.
  intros isLinux stacks old new_. split.
  - apply handleMoved_collects.
  - intros c. apply handleMoved_only_under_old.
Qed.

(** X16.  The move handling that is handed no old resource asks for
    nothing, and it raises a [TypeError] exactly when some group has a file
    input among its editors: the error comes from the first file input it
    looks at. *)
Theorem move_handling_without_old_resource :
  forall (isLinux : bool) (stacks : IEditorStacksModel) (newResource : option URI),
    commands (handleMovedFileInOpenedEditors isLinux stacks None newResource) = [] /\
    (completion (handleMovedFileInOpenedEditors isLinux stacks None newResource)
     = Thrown TypeError <->
     exists group f, In group (groups stacks) /\ In (FileInput f) (getEditors group)) /\
    (completion (handleMovedFileInOpenedEditors isLinux stacks None newResource)
     = Returned tt <->
     forall group f, In group (groups stacks) -> ~ In (FileInput f) (getEditors group)).
Proof.
  intros isLinux stacks newResource. rewrite handleMoved_without_old. simpl.
  split; [reflexivity |].
  destruct (existsb _ (groups stacks)) eqn:Hex.
  - apply existsb_exists in Hex as (group & Hgroup & Hex).
    apply existsb_exists in Hex as (i & Hi & Hfile).
    destruct i as [f | |]; try discriminate.
    split; split; eauto; try discriminate.
    intros H. now elim (H group f Hgroup).
  - split; split; try discriminate; try reflexivity.
    + intros (group & f & Hgroup & Hf).
      assert (Htrue : existsb (fun group =>
                existsb (fun i => match i with
                                  | FileInput _ => true
                                  | _ => false
                                  end) (getEditors group)) (groups stacks) = true).
      { apply existsb_exists. exists group. split; [exact Hgroup |].
        apply existsb_exists. now exists (FileInput f). }
      rewrite Htrue in Hex. discriminate.
    + intros _ group f Hgroup Hf.
      assert (Htrue : existsb (fun group =>
                existsb (fun i => match i with
                                  | FileInput _ => true
                                  | _ => false
                                  end) (getEditors group)) (groups stacks) = true).
      { apply existsb_exists. exists group. split; [exact Hgroup |].
        apply existsb_exists. now exists (FileInput f). }
      rewrite Htrue in Hex. discriminate.
Qed.

(** X17.  A file with unsaved changes is moved: its editor is asked to be
    re-opened at the new resource, and its input is not disposed.  The
    guard for unsaved changes holds back the disposal only, not the
    re-open. *)
Theorem moved_unsaved_file_reopened_not_disposed :
  forall (isLinux : bool) (stacks stacks' : IEditorStacksModel)
         (e : LocalFileChangeEvent) (before after : IFileStat)
         (group : IEditorGroup) (f : FileEditorInput),
    local_gotMoved e = true ->
    getBefore e = Some before ->
    getAfter e = Some after ->
    In group (groups stacks) ->
    In (FileInput f) (getEditors group) ->
    getResource f = stat_resource before ->
    isDirty f = true ->
    In (reopenAt stacks group (FileInput f) (stat_resource after))
       (commands (onLocalFileChange isLinux stacks stacks' e)) /\
    ~ In (Dispose f) (commands (onLocalFileChange isLinux stacks stacks' e)).
Proof.
  intros isLinux stacks stacks' [b a mv del] before after group f. simpl.
  intros -> -> -> Hgroup Hf Hres Hdirty.
  rewrite onLocalFileChange_before_present. cbn [commands fst option_map].
  split.
  - apply in_or_app. left. rewrite <- Hres.
    now apply handleMoved_reopens_moved_file.
  - intros H. apply in_app_or in H as [H | H].
    + apply handleMoved_only_opens in H as (r & opts & p & H). discriminate.
    + rewrite orb_true_r in H.
      apply in_handleDeletes in H as (i & Heq & _ & H).
      injection Heq as <-. unfold shouldDispose in H.
      now rewrite Hdirty in H.
Qed.

(** The unsaved [a.ts] is renamed to [b.ts]. *)
Lemma moved_unsaved_file_reopened_not_disposed_witness :
  In (reopenAt projEditors projGroup (FileInput unsavedA) (mkURI "/proj/src/b.ts"))
     (commands (onLocalFileChange true projEditors projEditors
                  (moved "/proj/src/a.ts" "/proj/src/b.ts"))) /\
  ~ In (Dispose unsavedA)
       (commands (onLocalFileChange true projEditors projEditors
                    (moved "/proj/src/a.ts" "/proj/src/b.ts"))).
Proof.
  apply (moved_unsaved_file_reopened_not_disposed true projEditors projEditors
           (moved "/proj/src/a.ts" "/proj/src/b.ts")
           (mkStat (mkURI "/proj/src/a.ts")) (mkStat (mkURI "/proj/src/b.ts"))
           projGroup unsavedA);
    try reflexivity; simpl; auto.
Defined.

(** X18.  A file is deleted, or moved away: an opened file input of that
    very resource that has no unsaved changes is disposed, unless the file
    was moved to the path the input already has. *)
Theorem saved_input_of_deleted_or_moved_file_disposed :
  forall (isLinux : bool) (stacks stacks' : IEditorStacksModel)
         (e : LocalFileChangeEvent) (before : IFileStat) (f : FileEditorInput),
    getBefore e = Some before ->
    local_gotDeleted e = true \/
    (local_gotMoved e = true /\ getAfter e <> None) ->
    (forall after, local_gotMoved e = true -> getAfter e = Some after ->
                   fsPath (stat_resource after) <> fsPath (getResource f)) ->
    In f (getOpenedFileInputs stacks') ->
    getResource f = stat_resource before ->
    isDirty f = false ->
    In (Dispose f) (commands (onLocalFileChange isLinux stacks stacks' e)).
Proof.
  intros isLinux stacks stacks' [b after mv del] before f. simpl.
  intros -> Htrigger Hguard Hopen Hres Hclean.
  rewrite onLocalFileChange_before_present. cbn [commands fst].
  apply in_or_app. right.
  assert (Hfire : del || match (if mv then option_map stat_resource after else None) with
                         | Some _ => true
                         | None => false
                         end = true).
  { destruct Htrigger as [-> | [-> Hafter]]; [reflexivity |].
    destruct after; [apply orb_true_r | now elim Hafter]. }
  rewrite Hfire. apply in_handleDeletes. exists f.
  split; [reflexivity |]. split; [exact Hopen |].
  apply shouldDispose_iff. split; [exact Hclean |]. split.
  - intros target Htarget. destruct mv; [| discriminate].
    destruct after as [after |]; [| discriminate].
    injection Htarget as <-. now apply Hguard.
  - rewrite Hres. apply isEqualOrParent_refl.
Qed.

(** The saved [x.ts] is deleted. *)
Lemma saved_input_of_deleted_or_moved_file_disposed_witness :
  In (Dispose savedX)
     (commands (onLocalFileChange true projEditors projEditors
                  (deleted "/proj/src/x.ts"))).
Proof.
  apply (saved_input_of_deleted_or_moved_file_disposed true projEditors projEditors
           (deleted "/proj/src/x.ts") (mkStat (mkURI "/proj/src/x.ts")) savedX);
    try reflexivity.
  - left. reflexivity.
  - intros after H. discriminate H.
  - simpl. auto.
Defined.

(** ** Side by side inputs *)

(** X19.  Of a side by side input the matching file input is the master
    when the master is a file input that the event reports as updated, and
    otherwise the details side under the same condition; there is none
    exactly when neither side is a file input with an update.  An addition
    does not make a side match. *)
Theorem side_by_side_match_is_updated_side :
  forall (isLinux : bool) (master details : EditorInput) (e : FileChangesEvent),
    (forall res,
        getMatchingFileEditorInputFromSideBySide isLinux master details e = Some res ->
        (master = FileInput res \/ details = FileInput res) /\
        contains isLinux e (getResource res) UPDATED = true) /\
    (forall m,
        master = FileInput m ->
        contains isLinux e (getResource m) UPDATED = true ->
        getMatchingFileEditorInputFromSideBySide isLinux master details e = Some m) /\
    (getMatchingFileEditorInputFromSideBySide isLinux master details e = None <->
     forall f,
       master = FileInput f \/ details = FileInput f ->
       contains isLinux e (getResource f) UPDATED = false).
Proof.
  intros isLinux master details e.
  unfold getMatchingFileEditorInputFromSideBySide,
    getMatchingFileEditorInputFromInput.
  split; [| split].
  - intros res H.
    destruct master as [m | |]; destruct details as [d | |];
      repeat match type of H with
             | context [if ?b then _ else _] => destruct b eqn:?; simpl in H
             end;
      try discriminate; injection H as <-; auto.
  - intros m -> Hupdated. now rewrite Hupdated.
  - split.
    + intros H f [-> | ->].
      * destruct (contains _ _ _ UPDATED); [discriminate | reflexivity].
      * destruct master as [m | |];
          repeat match type of H with
                 | context [if ?b then _ else _] => destruct b eqn:?; simpl in H
                 end;
          try discriminate; reflexivity.
    + intros H.
      destruct master as [m | |]; destruct details as [d | |];
        rewrite ?(H m (or_introl eq_refl)), ?(H d (or_intror eq_refl));
        reflexivity.
Qed.

Lemma side_by_side_match_is_updated_side_witness :
  getMatchingFileEditorInputFromSideBySide true
    (FileInput savedX) (FileInput savedY) bothUpdated = Some savedX /\
  getMatchingFileEditorInputFromSideBySide true
    (FileInput savedX) (FileInput savedY) (addedEvent "/proj/src/x.ts") = None.
Proof.
  split.
  - apply (proj1 (proj2 (side_by_side_match_is_updated_side true
                           (FileInput savedX) (FileInput savedY) bothUpdated))
                 savedX); reflexivity.
  - apply (proj2 (proj2 (side_by_side_match_is_updated_side true
                           (FileInput savedX) (FileInput savedY)
                           (addedEvent "/proj/src/x.ts")))).
    intros f [H | H]; injection H as <-; reflexivity.
Defined.
